(** * autoSearch: listing extraction and reconciliation

    A shallow embedding of the polling engine of autoSearch
    (main.py, src/database/storage.py, src/notifier/notification.py,
    src/scraper/autoscout.py, src/models/car.py) together with the
    properties of its reconciliation step, removal pass, query builder,
    page partitioner, field extractor and title cleanup.

    Conventions of the embedding.
    - Python [int] is [Z]; [str] is [string], read as ASCII text.
    - A [datetime] is the integer reading of the wall clock ([Z]); every
      call of [datetime.now()] is a reading handed to the function that
      makes it.  SQLite keeps a [datetime] as the text its adapter writes
      for it and gives that text back, no converter being registered; the
      text stands for the same reading and is written back unchanged, so
      a row holds the reading, and the Python type of [first_seen] and
      [last_seen] ([datetime] in a record extracted, [str] in a record
      read from the table) is not told apart.
    - The SQLite table [listings] (primary key [id]) is a finite map from
      the key to the row.
    - Library calls whose result the code only looks at (the HTML parser's
      selectors, the regular-expression search for an embedded JSON blob
      followed by [json.loads]) are taken as already evaluated: a fragment
      carries the answers to the queries the code asks of it. *)

From Stdlib Require Import ZArith Ascii String List Lia DecimalString.
From stdpp Require Import gmap strings list fin_maps.

Local Open Scope Z_scope.

(** ** src/models/car.py *)

Module Models.

Record CarListing := mkCarListing {
  id : string;
  make : string;
  model : string;
  price : Z;
  year : Z;
  kilometers : Z;
  location : string;
  url : string;
  first_seen : Z;
  last_seen : Z;
  title : option string;
  description : option string
}.

(** [listing.last_seen = t]: attribute assignment on the dataclass. *)
Definition set_last_seen (t : Z) (l : CarListing) : CarListing :=
  {| id := id l; make := make l; model := model l; price := price l;
     year := year l; kilometers := kilometers l; location := location l;
     url := url l; first_seen := first_seen l; last_seen := t;
     title := title l; description := description l |}.

End Models.

(** ** src/database/storage.py *)

Module Storage.
Import Models.

(** The statements [Database] sends to SQLite. *)
Inductive sql_stmt :=
| InsertOrReplace (l : CarListing)
| SelectById (listing_id : string)
| CountAll
| CountNotIn (ids : list string)
| DeleteNotIn (ids : list string)
| DeleteAll.

(** The database file: the rows of [listings] by primary key, and the
    statements executed so far, oldest first.  SQLite is taken to accept
    every statement it is sent: its bound on the number of parameters of
    one statement is not modelled. *)
Record db_state := mkDb {
  rows : gmap string CarListing;
  executed : list sql_stmt
}.

(** Every row is stored under its own [id] column. *)
Definition table_ok (t : gmap string CarListing) : Prop :=
  ∀ k r, t !! k = Some r → id r = k.

(** A database action returns a value and the new state. *)
Definition DB (A : Type) : Type := db_state → A * db_state.

#[export] Instance db_ret : MRet DB := λ A a s, (a, s).
#[export] Instance db_bind : MBind DB := λ A B k m s,
  let (a, s') := m s in k a s'.

(** Rows kept by [WHERE id NOT IN (ids)] and rows it selects. *)
Definition not_in (ids : list string) (t : gmap string CarListing)
  : gmap string CarListing :=
  filter (λ kr, kr.1 ∉ ids) t.

Definition keep_in (ids : list string) (t : gmap string CarListing)
  : gmap string CarListing :=
  filter (λ kr, kr.1 ∈ ids) t.

(** [db.execute]: the effect of one statement on the table and the row or
    number it yields ([fetchone] of a [SELECT], the result of a row
    count). *)
Definition execute_count (q : sql_stmt) : DB nat := λ s,
  let n := match q with
           | CountAll => size (rows s)
           | CountNotIn ids => size (not_in ids (rows s))
           | _ => 0%nat
           end in
  (n, mkDb (rows s) (executed s ++ [q])).

Definition execute (q : sql_stmt) : DB unit := λ s,
  let t := match q with
           | InsertOrReplace l => <[id l := l]> (rows s)
           | DeleteNotIn ids => keep_in ids (rows s)
           | DeleteAll => ∅
           | _ => rows s
           end in
  (tt, mkDb t (executed s ++ [q])).

Definition fetchone (listing_id : string) : DB (option CarListing) := λ s,
  (rows s !! listing_id, mkDb (rows s) (executed s ++ [SelectById listing_id])).

(** Python truth value of a list. *)
Definition truthy_list {A} (l : list A) : bool :=
  match l with [] => false | _ => true end.

Definition add_listing (listing : CarListing) : DB unit :=
  execute (InsertOrReplace listing).

(** The record is rebuilt from the columns of the row; its two
    timestamps are the readings the row holds (as text, in the code). *)
Definition get_listing (listing_id : string) : DB (option CarListing) :=
  fetchone listing_id.

Definition remove_old_listings (current_ids : list string) : DB nat :=
  if negb (truthy_list current_ids) then mret 0%nat
  else
    let query_count :=
      if truthy_list current_ids then CountNotIn current_ids else CountAll in
    count_to_remove ← execute_count query_count;
    (if truthy_list current_ids
     then execute (DeleteNotIn current_ids)
     else execute DeleteAll);;
    mret count_to_remove.


End Storage.

(** ** Python built-ins used by the scraper and the notifier *)

Module Py.

Local Open Scope string_scope.

(** [str.isspace] on ASCII: tab, line feed, vertical tab, form feed,
    carriage return, the four separators 28-31 and the space. *)
Definition is_space (c : ascii) : bool :=
  let n := nat_of_ascii c in
  ((9 <=? n) && (n <=? 13) || (28 <=? n) && (n <=? 32))%nat.

(** [\d] on ASCII. *)
Definition is_digit (c : ascii) : bool :=
  let n := nat_of_ascii c in ((48 <=? n) && (n <=? 57))%nat.

Definition digit_val (c : ascii) : Z := Z.of_nat (nat_of_ascii c) - 48.

Definition lower_char (c : ascii) : ascii :=
  let n := nat_of_ascii c in
  if ((65 <=? n) && (n <=? 90))%nat then ascii_of_nat (n + 32) else c.

(** [str.lower]. *)
Fixpoint lower (s : string) : string :=
  match s with
  | "" => ""
  | String c r => String (lower_char c) (lower r)
  end.

Fixpoint drop (n : nat) (s : string) : string :=
  match n, s with
  | O, _ => s
  | S k, "" => ""
  | S k, String _ r => drop k r
  end.

(** Number of leading whitespace characters. *)
Fixpoint span_space (s : string) : nat :=
  match s with
  | String c r => if is_space c then S (span_space r) else O
  | "" => O
  end.

Definition lstrip (s : string) : string := drop (span_space s) s.

Fixpoint rstrip (s : string) : string :=
  match s with
  | "" => ""
  | String c r =>
      match rstrip r with
      | "" => if is_space c then "" else String c ""
      | r' => String c r'
      end
  end.

(** [str.strip()]. *)
Definition strip (s : string) : string := rstrip (lstrip s).

(** [str.split()] with no separator: the maximal runs of non-whitespace
    characters.  [cur] is the run being read, reversed. *)
Fixpoint split_go (cur : list ascii) (s : string) : list string :=
  let flush := match cur with
               | [] => []
               | _ => [string_of_list_ascii (rev cur)]
               end in
  match s with
  | "" => flush
  | String c r =>
      if is_space c then flush ++ split_go [] r else split_go (c :: cur) r
  end.

Definition split (s : string) : list string := split_go [] s.

(** [sep.join(parts)]. *)
Fixpoint join (sep : string) (parts : list string) : string :=
  match parts with
  | [] => ""
  | [p] => p
  | p :: ps => p ++ sep ++ join sep ps
  end.

(** [s.replace(old, new)] for a non-empty [old]: the occurrences of [old]
    are found from the left and do not overlap.  [skip] counts the
    characters of an occurrence still to be passed over. *)
Fixpoint replace_go (old new : string) (skip : nat) (s : string) : string :=
  match s with
  | "" => ""
  | String c r =>
      match skip with
      | S k => replace_go old new k r
      | O =>
          if String.prefix old s
          then new ++ replace_go old new (Nat.pred (String.length old)) r
          else String c (replace_go old new O r)
      end
  end.

(** With an empty [old], Python puts [new] before every character and at
    the end. *)
Fixpoint intersperse (new : string) (s : string) : string :=
  match s with
  | "" => new
  | String c r => new ++ String c (intersperse new r)
  end.

Definition replace (old new s : string) : string :=
  match old with
  | "" => intersperse new s
  | _ => replace_go old new O s
  end.

(** [needle in hay] for two strings. *)
Fixpoint contains (needle hay : string) : bool :=
  String.prefix needle hay ||
  match hay with
  | "" => false
  | String _ r => contains needle r
  end.

(** [s.split('/')[-1]]: what follows the last slash. *)
Fixpoint last_segment (s : string) : string :=
  match s with
  | "" => ""
  | String c r =>
      if contains "/" r then last_segment r
      else if Ascii.eqb c "/" then r else s
  end.

(** [re.sub(r'[^\d]', '', s)]. *)
Fixpoint digits_only (s : string) : string :=
  match s with
  | "" => ""
  | String c r => if is_digit c then String c (digits_only r) else digits_only r
  end.

(** Every character satisfies [P]. *)
Fixpoint all_chars (P : ascii → bool) (s : string) : bool :=
  match s with
  | "" => true
  | String c r => P c && all_chars P r
  end.

(** A digit or the dot that separates thousands. *)
Definition digit_or_dot (c : ascii) : bool :=
  is_digit c || Ascii.eqb c ".".

(** Every character is a digit. *)
Fixpoint all_digits (s : string) : bool :=
  match s with
  | "" => true
  | String c r => is_digit c && all_digits r
  end.

(** The body of an integer literal as [int()] reads it: decimal digits,
    single underscores allowed between two digits. *)
Fixpoint int_body (after_digit : bool) (acc : Z) (s : string) : option Z :=
  match s with
  | "" => if after_digit then Some acc else None
  | String c r =>
      if is_digit c then int_body true (10 * acc + digit_val c) r
      else if Ascii.eqb c "_" && after_digit then int_body false acc r
      else None
  end.

(** The whitespace [int()] passes over at both ends of a string: tab, line
    feed, vertical tab, form feed, carriage return and the space.  The
    separators 28-31, which [str.strip] removes, are not among them. *)
Definition is_int_space (c : ascii) : bool :=
  let n := nat_of_ascii c in
  ((9 <=? n) && (n <=? 13) || (n =? 32))%nat.

Fixpoint span_int_space (s : string) : nat :=
  match s with
  | String c r => if is_int_space c then S (span_int_space r) else O
  | "" => O
  end.

Fixpoint rstrip_int_space (s : string) : string :=
  match s with
  | "" => ""
  | String c r =>
      match rstrip_int_space r with
      | "" => if is_int_space c then "" else String c ""
      | r' => String c r'
      end
  end.

Definition strip_int_space (s : string) : string :=
  rstrip_int_space (drop (span_int_space s) s).

(** [int(s)] for a string: [None] stands for [ValueError].  The
    interpreter's bound on the length of a decimal literal is not
    modelled. *)
Definition int_of_str (s : string) : option Z :=
  match strip_int_space s with
  | String "-" r => Z.opp <$> int_body false 0 r
  | String "+" r => int_body false 0 r
  | t => int_body false 0 t
  end.

(** [str(n)] for an integer. *)
Definition str_of_int (z : Z) : string := NilZero.string_of_int (Z.to_int z).

(** The first [n] characters when they are all digits, with the rest. *)
Fixpoint take_digits (n : nat) (s : string) : option (string * string) :=
  match n with
  | O => Some ("", s)
  | S k =>
      match s with
      | String c r =>
          if is_digit c
          then '(d, rest) ← take_digits k r; Some (String c d, rest)
          else None
      | "" => None
      end
  end.

(** [re.search(r'(\d{2})SEP(\d{4})', s)]: group 2 of the leftmost match. *)
Definition month_year_here (sep : ascii) (s : string) : option string :=
  '(_, r) ← take_digits 2 s;
  match r with
  | String c r' => if Ascii.eqb c sep then fst <$> take_digits 4 r' else None
  | "" => None
  end.

Fixpoint search_month_year (sep : ascii) (s : string) : option string :=
  match month_year_here sep s with
  | Some y => Some y
  | None => match s with
            | "" => None
            | String _ r => search_month_year sep r
            end
  end.

(** [re.search(r'(\d{4})', s)]: group 1 of the leftmost match. *)
Fixpoint search_four_digits (s : string) : option string :=
  match take_digits 4 s with
  | Some (y, _) => Some y
  | None => match s with
            | "" => None
            | String _ r => search_four_digits r
            end
  end.

(** The maximal run of digits at the head of a string, with the rest. *)
Fixpoint span_digits (s : string) : string * string :=
  match s with
  | String c r =>
      if is_digit c then let (d, rest) := span_digits r in (String c d, rest)
      else ("", s)
  | "" => ("", "")
  end.

(** [re.search(r'(\d+(?:\.\d+)?)', s)]: the leftmost run of digits, with
    one dot and a further run of digits when they follow at once. *)
Fixpoint search_number (s : string) : option string :=
  match s with
  | "" => None
  | String c r =>
      if is_digit c then
        let (d, rest) := span_digits s in
        match rest with
        | String "." rest' =>
            match span_digits rest' with
            | ("", _) => Some d
            | (d', _) => Some (d ++ "." ++ d')
            end
        | _ => Some d
        end
      else search_number r
  end.

End Py.

(** ** src/notifier/notification.py *)

Module Notification.
Import Models.

Local Open Scope string_scope.

(** The regular expressions [_format_listing_message] builds are a
    start-of-string anchor followed by [make], [model] and [\s*].  [make]
    and [model] are spliced into the pattern as they are, and they are
    read as literal text here.  That is what [re] makes of them when they
    hold no character special to it ([regex_plain] below); for a make or
    a model with such a character the matcher of this section does not
    say what the code does, and the properties of the title are stated
    for plain makes and models only. *)
Inductive atom :=
| Lit (text : string)
| SpaceStar.

(** A literal matched under [re.IGNORECASE]; the rest of the subject. *)
Fixpoint match_lit (text s : string) : option string :=
  match text, s with
  | "", _ => Some s
  | String a text', String b r =>
      if Ascii.eqb (Py.lower_char a) (Py.lower_char b)
      then match_lit text' r else None
  | String _ _, "" => None
  end.

(** Backtracking match of a sequence of atoms at the head of [s]: [\s*] is
    greedy and gives characters back one at a time. *)
Fixpoint match_atoms (p : list atom) (s : string) : option string :=
  match p with
  | [] => Some s
  | Lit text :: p' =>
      match match_lit text s with
      | Some r => match_atoms p' r
      | None => None
      end
  | SpaceStar :: p' =>
      (fix give_back (k : nat) : option string :=
         match match_atoms p' (Py.drop k s) with
         | Some r => Some r
         | None => match k with
                   | O => None
                   | S k' => give_back k'
                   end
         end) (Py.span_space s)
  end.

(** [re.sub('^' + p, "", s, flags=re.IGNORECASE)]: the anchor allows one
    match only, at the start. *)
Definition sub_prefix (p : list atom) (s : string) : string :=
  match match_atoms p s with
  | Some r => r
  | None => s
  end.

(** A character without a special meaning in a regular expression: any
    but the dot, the anchors, the repetition marks, the braces, brackets
    and parentheses, the backslash and the bar. *)
Definition regex_plain_char (c : ascii) : bool :=
  negb (existsb (Ascii.eqb c) (list_ascii_of_string ".^$*+?{}[]\|()")).

(** A make or model that is a literal when spliced into a pattern. *)
Definition regex_plain (s : string) : bool :=
  Py.all_chars regex_plain_char s.

Definition patterns (make model : string) : list (list atom) :=
  [ [Lit make; SpaceStar; Lit model; SpaceStar];
    [Lit (make ++ model); SpaceStar];
    [Lit make; SpaceStar] ].

(** The loop over [patterns]: substitute, then leave the loop as soon as
    [clean_title != listing.title]. *)
Fixpoint strip_patterns (ps : list (list atom)) (listing_title clean_title : string)
  : string :=
  match ps with
  | [] => clean_title
  | p :: ps' =>
      let clean_title := sub_prefix p clean_title in
      if negb (String.eqb clean_title listing_title) then clean_title
      else strip_patterns ps' listing_title clean_title
  end.

(** Python truth value of a string. *)
Definition truthy_str (s : string) : bool :=
  match s with "" => false | _ => true end.

(** The collapse of whitespace and the removal of asterisks. *)
Definition normalize_title (t : string) : string :=
  let clean_title := Py.join " " (Py.split t) in
  Py.replace "*" ""
    (Py.replace "**" ""
       (Py.replace "***" ""
          (Py.replace "****" "" clean_title))).

(** [title_str] of [_format_listing_message]. *)
Definition title_str (listing : CarListing) : string :=
  match title listing with
  | Some t =>
      if truthy_str t && truthy_str (Py.strip t) then
        let clean_title := normalize_title t in
        let clean_title :=
          strip_patterns (patterns (make listing) (model listing)) t clean_title in
        let clean_title := Py.strip clean_title in
        if negb (truthy_str clean_title)
        then make listing ++ " " ++ model listing
        else clean_title
      else make listing ++ " " ++ model listing
  | None => make listing ++ " " ++ model listing
  end.

(** Any character but the asterisk. *)
Definition not_star (c : ascii) : bool := negb (Ascii.eqb c "*").

(** The cascade as the comment above it describes it: each pattern is
    tried on the current string and the first one that changes it ends the
    cascade. *)
Fixpoint strip_first_changing (ps : list (list atom)) (clean_title : string)
  : string :=
  match ps with
  | [] => clean_title
  | p :: ps' =>
      let t := sub_prefix p clean_title in
      if negb (String.eqb t clean_title) then t
      else strip_first_changing ps' clean_title
  end.

End Notification.

(** ** src/scraper/autoscout.py: the query builder *)

Module QueryBuilder.

Local Open Scope string_scope.

(** The scalar values a search configuration holds for a filter (YAML
    null, booleans, integers, strings; floats are not modelled).  A key
    that is not in the dict is [PNone] too: [dict.get] answers [None] for
    it. *)
Inductive pyval :=
| PNone
| PBool (b : bool)
| PInt (z : Z)
| PStr (s : string).

(** Python truth value. *)
Definition truthy (v : pyval) : bool :=
  match v with
  | PNone => false
  | PBool b => b
  | PInt z => negb (z =? 0)%Z
  | PStr s => negb (String.eqb s "")
  end.

(** The text an f-string puts for a value. *)
Definition py_str (v : pyval) : string :=
  match v with
  | PNone => "None"
  | PBool true => "True"
  | PBool false => "False"
  | PInt z => Py.str_of_int z
  | PStr s => s
  end.

(** A value the builder iterates over ([countries], [equipment]): a
    scalar, or a container (a list; a dict, whose iteration yields its
    keys) given by what iterating it yields. *)
Inductive pyobj :=
| Scalar (v : pyval)
| Container (yields : list pyval).

(** Python truth value: a container is true when it is not empty. *)
Definition obj_truthy (o : pyobj) : bool :=
  match o with
  | Scalar v => truthy v
  | Container yields => Storage.truthy_list yields
  end.

(** [for x in o]: a string yields its characters, one string each;
    [None] stands for the [TypeError] of null, a boolean or an integer. *)
Definition iterate (o : pyobj) : option (list pyval) :=
  match o with
  | Scalar (PStr s) =>
      Some (map (λ c, PStr (String c "")) (list_ascii_of_string s))
  | Scalar _ => None
  | Container yields => Some yields
  end.

(** A range filter ([year_range], [price_range], [seats], [doors]): the
    key is missing, or holds a dict with its [min] and [max], or holds
    something that has no [get] method (null, a number, a string). *)
Inductive range_arg :=
| RangeAbsent
| RangeDict (min max : pyval)
| RangeOther.

Inductive bound := Min | Max.

(** [params.get(key, {}).get(bound)]; [None] stands for the
    [AttributeError] of a value without [get]. *)
Definition range_get (r : range_arg) (b : bound) : option pyval :=
  match r with
  | RangeAbsent => Some PNone
  | RangeDict lo hi => Some (match b with Min => lo | Max => hi end)
  | RangeOther => None
  end.

(** The dict [params] as [build_search_url] reads it.  [make] and the
    entries of [models] are strings, as the signature of [search], which
    sets both keys, declares them.  [countries] is [None] when the key is
    missing; for [equipment], as for the scalar filters, a missing key is
    the null that [dict.get] answers. *)
Record SearchParams := mkSearchParams {
  make : string;
  models : list string;
  countries : option pyobj;
  year_range : range_arg;
  max_kilometers : pyval;
  price_range : range_arg;
  search_id : pyval;
  body_type : pyval;
  seats : range_arg;
  fuel_type : pyval;
  transmission : pyval;
  doors : range_arg;
  equipment : pyobj;
  color : pyval;
  zip : pyval;
  zipr : pyval
}.

Definition base : string := "https://www.autoscout24.de".

Definition model_part (models : list string) : string :=
  match models with
  | [] => ""
  | [m] =>
      let model := Py.lower m in
      if bool_decide (model ∈ ["t6"; "t5"; "t4"; "t3"])
      then model ++ "-(alle)" else model
  | m :: _ => Py.lower m ++ "-(alle)"
  end.

Definition base_url (p : SearchParams) : string :=
  let make := Py.lower (make p) in
  let model_part := model_part (models p) in
  if Notification.truthy_str model_part
  then base ++ "/lst/" ++ make ++ "/" ++ model_part
  else base ++ "/lst/" ++ make.

Definition country_code (country : string) : list string :=
  if String.eqb country "AT" then ["A"]
  else if String.eqb country "DE" then ["D"]
  else if String.eqb country "BE" then ["B"]
  else if String.eqb country "ES" then ["E"]
  else if String.eqb country "FR" then ["F"]
  else if String.eqb country "IT" then ["I"]
  else if String.eqb country "LU" then ["L"]
  else if String.eqb country "NL" then ["NL"]
  else [].

(** The [if]/[elif] chain on one value the loop is given: a value that is
    not a string is equal to none of the names. *)
Definition code_of (country : pyval) : list string :=
  match country with
  | PStr s => country_code s
  | _ => []
  end.

(** [country_codes] after the loop and the default; [None] when
    [countries] cannot be iterated over. *)
Definition country_codes (countries : option pyobj) : option (list string) :=
  let countries := default (Container [PStr "AT"; PStr "DE"]) countries in
  yields ← iterate countries;
  let codes := concat (map code_of yields) in
  Some (match codes with
        | [] => ["D"; "A"; "B"; "E"; "F"; "I"; "L"; "NL"]
        | _ => codes
        end).

(** [if v: query_params.append(f"key={v}")]. *)
Definition opt_param (key : string) (v : pyval) : list string :=
  if truthy v then [key ++ "=" ++ py_str v] else [].

Definition range_param (key : string) (r : range_arg) (b : bound)
  : option (list string) :=
  v ← range_get r b; Some (opt_param key v).

(** [if params.get('equipment'): for eq in ...: append(f"eq={eq}")];
    [None] when the value is true and cannot be iterated over. *)
Definition equipment_params (e : pyobj) : option (list string) :=
  if obj_truthy e
  then yields ← iterate e; Some (map (λ eq, "eq=" ++ py_str eq) yields)
  else Some [].

(** The list [query_params] at the end of [build_search_url], in the order
    of the appends; [None] when the loop over the countries, a range
    filter or the loop over the equipment raises. *)
Definition query_params (p : SearchParams) : option (list string) :=
  codes ← country_codes (countries p);
  fregfrom ← range_param "fregfrom" (year_range p) Min;
  fregto ← range_param "fregto" (year_range p) Max;
  pricefrom ← range_param "pricefrom" (price_range p) Min;
  priceto ← range_param "priceto" (price_range p) Max;
  seatsfrom ← range_param "seatsfrom" (seats p) Min;
  seatsto ← range_param "seatsto" (seats p) Max;
  doorfrom ← range_param "doorfrom" (doors p) Min;
  doorto ← range_param "doorto" (doors p) Max;
  eq ← equipment_params (equipment p);
  Some (["atype=C";
         "cy=" +:+ Py.join "%2C" codes;
         "damaged_listing=exclude";
         "desc=0"]
        ++ fregfrom ++ fregto
        ++ opt_param "kmto" (max_kilometers p)
        ++ ["ocs_listing=include"; "powertype=kw"]
        ++ pricefrom ++ priceto
        ++ opt_param "search_id" (search_id p)
        ++ ["sort=standard"; "source=homepage_search-mask"; "ustate=N%2CU"]
        ++ opt_param "body" (body_type p)
        ++ seatsfrom ++ seatsto
        ++ opt_param "fuel" (fuel_type p)
        ++ opt_param "gear" (transmission p)
        ++ doorfrom ++ doorto
        ++ eq
        ++ opt_param "color" (color p)
        ++ opt_param "zip" (zip p)
        ++ opt_param "zipr" (zipr p))%list.

Definition build_search_url (p : SearchParams) : option string :=
  qp ← query_params p; Some (base_url p ++ "?" ++ Py.join "&" qp).

(** The URL carries a parameter named [key]. *)
Definition has_param (key : string) (qp : list string) : bool :=
  existsb (String.prefix (key ++ "=")) qp.

(** A filter is present and non-null. *)
Definition non_null (v : pyval) : bool :=
  match v with PNone => false | _ => true end.

(** The truth value of a bound of a range filter. *)
Definition range_truthy (r : range_arg) (b : bound) : bool :=
  match range_get r b with
  | Some v => truthy v
  | None => false
  end.

(** A range filter that has a [get] method or is missing. *)
Definition is_dict_or_absent (r : range_arg) : bool :=
  match r with RangeOther => false | _ => true end.

(** The values [countries] and [equipment] can be looped over as the
    builder does: the countries can be iterated, and so can the equipment
    when it is true. *)
Definition countries_iterable (countries : option pyobj) : bool :=
  bool_decide
    (is_Some (iterate (default (Container [PStr "AT"; PStr "DE"]) countries))).

Definition equipment_iterable (e : pyobj) : bool :=
  negb (obj_truthy e) || bool_decide (is_Some (iterate e)).

(** Nothing in [build_search_url] raises. *)
Definition buildable (p : SearchParams) : bool :=
  countries_iterable (countries p)
  && is_dict_or_absent (year_range p) && is_dict_or_absent (price_range p)
  && is_dict_or_absent (seats p) && is_dict_or_absent (doors p)
  && equipment_iterable (equipment p).

(** The entries of [query_params] when nothing raises. *)
Definition codes_entries (countries : option pyobj) : list string :=
  default [] (country_codes countries).

Definition equipment_entries (e : pyobj) : list string :=
  default [] (equipment_params e).

Definition range_entries (key : string) (r : range_arg) (b : bound)
  : list string :=
  match range_get r b with
  | Some v => opt_param key v
  | None => []
  end.

Definition query_entries (p : SearchParams) : list string :=
  (["atype=C";
    "cy=" +:+ Py.join "%2C" (codes_entries (countries p));
    "damaged_listing=exclude";
    "desc=0"]
   ++ range_entries "fregfrom" (year_range p) Min
   ++ range_entries "fregto" (year_range p) Max
   ++ opt_param "kmto" (max_kilometers p)
   ++ ["ocs_listing=include"; "powertype=kw"]
   ++ range_entries "pricefrom" (price_range p) Min
   ++ range_entries "priceto" (price_range p) Max
   ++ opt_param "search_id" (search_id p)
   ++ ["sort=standard"; "source=homepage_search-mask"; "ustate=N%2CU"]
   ++ opt_param "body" (body_type p)
   ++ range_entries "seatsfrom" (seats p) Min
   ++ range_entries "seatsto" (seats p) Max
   ++ opt_param "fuel" (fuel_type p)
   ++ opt_param "gear" (transmission p)
   ++ range_entries "doorfrom" (doors p) Min
   ++ range_entries "doorto" (doors p) Max
   ++ equipment_entries (equipment p)
   ++ opt_param "color" (color p)
   ++ opt_param "zip" (zip p)
   ++ opt_param "zipr" (zipr p))%list.

(** The parameters that do not depend on the search. *)
Definition fixed_params : list string :=
  ["atype=C"; "damaged_listing=exclude"; "desc=0"; "ocs_listing=include";
   "powertype=kw"; "sort=standard"; "source=homepage_search-mask";
   "ustate=N%2CU"].

(** The country codes the site knows. *)
Definition known_codes : list string :=
  ["D"; "A"; "B"; "E"; "F"; "I"; "L"; "NL"].

End QueryBuilder.

(** ** src/scraper/autoscout.py: the field extractor and the partitioner *)

Module Scraper.
Import Models.

Local Open Scope string_scope.

(** What [json.loads] returns.  A float is kept as what [int()] makes of
    it, the only use the extractor has for one. *)
Inductive float_kind :=
| Finite (truncated : Z)
| Infinite
| NotANumber.

#[local] Set Warnings "-register-all".
Inductive json :=
| JNull
| JBool (b : bool)
| JInt (z : Z)
| JFloat (f : float_kind)
| JStr (s : string)
| JArr (items : list json)
| JObj (fields : list (string * json)).

(** The outcome of a regular-expression search for an embedded JSON text
    in [str(element)] followed by [json.loads] of the match. *)
Inductive blob (A : Type) :=
| NoMatch
| DecodeError
| Parsed (a : A).
Arguments NoMatch {A}.
Arguments DecodeError {A}.
Arguments Parsed {A} a.


(** One listing fragment (an [article] tag), as the answers to the queries
    the code makes of it. *)
Record Element := mkElement {
  attrs : gmap string string;            (* element.attrs *)
  link_href : option string;             (* href of select_one('a') *)
  h2_text : option string;               (* select_one('h2').get_text(strip=True) *)
  vehicle_details : blob (list json);    (* the vehicleDetails array *)
  tracking : blob (list (string * json));     (* the tracking object *)
  price_object : blob (list (string * json)); (* the price object *)
  location_text : option string;         (* select_one('.location').get_text(strip=True) *)
  parent_div_classes : list (list string) (* class lists of find_parents('div') *)
}.

(** [d[key]] / [key in d] for a parsed JSON object. *)
Fixpoint obj_get (key : string) (fields : list (string * json)) : option json :=
  match fields with
  | [] => None
  | (k, v) :: rest => if String.eqb k key then Some v else obj_get key rest
  end.

Definition is_str (key : string) (j : json) : bool :=
  match j with JStr s => String.eqb s key | _ => false end.

(** [key in v]: substring of a string, element of a list, key of a dict;
    [None] is the [TypeError] of a value that is not iterable. *)
Definition py_in (key : string) (v : json) : option bool :=
  match v with
  | JStr s => Some (Py.contains key s)
  | JArr items => Some (existsb (is_str key) items)
  | JObj fields => Some (bool_decide (is_Some (obj_get key fields)))
  | _ => None
  end.

(** A value handed to [re.search] or [re.sub]: anything but a string is a
    [TypeError]. *)
Definition as_str (v : json) : option string :=
  match v with JStr s => Some s | _ => None end.

(** [int(v)] inside [try ... except (ValueError, TypeError)]. *)
Inductive int_result :=
| IntOk (z : Z)
| IntCaught        (* ValueError or TypeError: handled, the field keeps its value *)
| IntEscapes.      (* OverflowError: leaves the handler *)

Definition int_of_json (v : json) : int_result :=
  match v with
  | JNull => IntCaught
  | JBool b => IntOk (if b then 1 else 0)
  | JInt z => IntOk z
  | JFloat (Finite t) => IntOk t
  | JFloat Infinite => IntEscapes
  | JFloat NotANumber => IntCaught
  | JStr s => match Py.int_of_str s with Some z => IntOk z | None => IntCaught end
  | JArr _ | JObj _ => IntCaught
  end.

(** [field = int(v)] guarded by the handler; [None] when the error
    escapes. *)
Definition guarded_int (current : Z) (v : json) : option Z :=
  match int_of_json v with
  | IntOk z => Some z
  | IntCaught => Some current
  | IntEscapes => None
  end.

(** A JSON value that [int()] does not turn into a negative number. *)
Definition nonneg_json (v : json) : bool :=
  match int_of_json v with
  | IntOk z => (0 <=? z)%Z
  | IntCaught | IntEscapes => true
  end.

Definition nonneg_field (key : string) (b : blob (list (string * json))) : bool :=
  match b with
  | Parsed fields =>
      match obj_get key fields with
      | Some v => nonneg_json v
      | None => true
      end
  | NoMatch | DecodeError => true
  end.

Definition data_attrs (element : Element) : gmap string string :=
  filter (λ kv, String.prefix "data-" kv.1 = true) (attrs element).

(** Inline attributes. *)
Definition inline_int (name : string) (element : Element) : Z :=
  match data_attrs element !! name with
  | Some v => match Py.int_of_str v with Some z => z | None => 0 end
  | None => 0
  end.

(** The year of a registration text: [MM<sep>YYYY] first, and when
    [bare] is set a bare run of four digits after that.  [None] is an
    error of [int()], which no handler around it catches. *)
Definition year_of (sep : ascii) (bare : bool) (current : Z) (text : string)
  : option Z :=
  match Py.search_month_year sep text with
  | Some y => Py.int_of_str y
  | None =>
      if bare then
        match Py.search_four_digits text with
        | Some y => Py.int_of_str y
        | None => Some current
        end
      else Some current
  end.

Definition inline_year (element : Element) : option Z :=
  match data_attrs element !! "data-first-registration" with
  | Some reg_str => year_of "-" true 0 reg_str
  | None => Some 0
  end.

Definition inline_location (element : Element) : string :=
  let city := default "" (data_attrs element !! "data-listing-city") in
  let zip_code := default "" (data_attrs element !! "data-listing-zip-code") in
  if Notification.truthy_str city || Notification.truthy_str zip_code
  then Py.strip (city ++ " " ++ zip_code) else "".

(** FALLBACK 1: one entry of the [vehicleDetails] array, on the pair
    (kilometers, year). *)
Definition detail_step (st : Z * Z) (detail : json) : option (Z * Z) :=
  let '(kilometers, year) := st in
  has_data ← py_in "data" detail;
  if negb has_data then Some st else
  has_icon ← py_in "iconName" detail;
  if negb has_icon then Some st else
  match detail with
  | JObj fields =>
      icon ← obj_get "iconName" fields;
      data ← obj_get "data" fields;
      is_mileage ← py_in "mileage" icon;
      if is_mileage && (kilometers =? 0)%Z then
        text ← as_str data;
        let km_text := Py.digits_only text in
        if Notification.truthy_str km_text then
          match Py.int_of_str km_text with
          | Some k => Some (k, year)
          | None => Some st
          end
        else Some st
      else
        is_calendar ← py_in "calendar" icon;
        if is_calendar && (year =? 0)%Z then
          text ← as_str data;
          y ← year_of "/" true year text;
          Some (kilometers, y)
        else Some st
  | _ => None
  end.

Fixpoint details_loop (st : Z * Z) (details : list json) : option (Z * Z) :=
  match details with
  | [] => Some st
  | d :: rest => st' ← detail_step st d; details_loop st' rest
  end.

Definition unresolved (kilometers year price : Z) : bool :=
  (kilometers =? 0)%Z || (year =? 0)%Z || (price =? 0)%Z.

Definition fallback_details (element : Element) (st : Z * Z * Z)
  : option (Z * Z * Z) :=
  let '(kilometers, year, price) := st in
  if unresolved kilometers year price then
    match vehicle_details element with
    | Parsed details =>
        '(k, y) ← details_loop (kilometers, year) details; Some (k, y, price)
    | _ => Some st
    end
  else Some st.

(** FALLBACK 2: the tracking object. *)
Definition fallback_tracking (element : Element) (st : Z * Z * Z)
  : option (Z * Z * Z) :=
  let '(kilometers, year, price) := st in
  if unresolved kilometers year price then
    match tracking element with
    | Parsed tracking_data =>
        year ←
          match obj_get "firstRegistration" tracking_data with
          | Some reg =>
              if (year =? 0)%Z
              then text ← as_str reg; year_of "-" false year text
              else Some year
          | None => Some year
          end;
        kilometers ←
          match obj_get "mileage" tracking_data with
          | Some v => if (kilometers =? 0)%Z then guarded_int kilometers v
                      else Some kilometers
          | None => Some kilometers
          end;
        price ←
          match obj_get "price" tracking_data with
          | Some v => if (price =? 0)%Z then guarded_int price v
                      else Some price
          | None => Some price
          end;
        Some (kilometers, year, price)
    | _ => Some st
    end
  else Some st.

(** FALLBACK 3: the price object. *)
Definition fallback_price (element : Element) (price : Z) : option Z :=
  if (price =? 0)%Z then
    match price_object element with
    | Parsed price_data =>
        match obj_get "priceFormatted" price_data with
        | Some v =>
            price_formatted ← as_str v;
            let price_digits := Py.digits_only price_formatted in
            if Notification.truthy_str price_digits then
              match Py.int_of_str price_digits with
              | Some z => Some z
              | None => Some price
              end
            else Some price
        | None => Some price
        end
    | _ => Some price
    end
  else Some price.

(** FALLBACK 4: the location element. *)
Definition fallback_location (element : Element) (location : string) : string :=
  if negb (Notification.truthy_str location) then
    match location_text element with
    | Some t => t
    | None => location
    end
  else location.

Definition listing_id_of (element : Element) : string :=
  let listing_id := default "" (attrs element !! "id") in
  if negb (Notification.truthy_str listing_id) then
    match link_href element with
    | Some url => Py.last_segment url
    | None => listing_id
    end
  else listing_id.

Definition base_url : string := "https://www.autoscout24.de".

Definition full_url_of (element : Element) : string :=
  let url := default "" (link_href element) in
  if String.prefix "/" url then base_url ++ url else url.

(** The three ways [extract_listing_details] ends; Python sees [None] for
    the last two. *)
Inductive extraction :=
| Extracted (listing : CarListing)
| NoIdentifier
| Raised.

(** The numeric cascade: (kilometers, year, price), or [None] when an
    error reaches the outer handler. *)
Definition cascade (element : Element) : option (Z * Z * Z) :=
  let kilometers := inline_int "data-mileage" element in
  year ← inline_year element;
  let price := inline_int "data-price" element in
  st ← fallback_details element (kilometers, year, price);
  '(kilometers, year, price) ← fallback_tracking element st;
  price ← fallback_price element price;
  Some (kilometers, year, price).

(** [now1] and [now2] are the two readings of [datetime.now()] taken for
    [first_seen] and [last_seen]. *)
Definition extract_listing_details (element : Element) (make model : string)
    (now1 now2 : Z) : extraction :=
  let listing_id := listing_id_of element in
  let full_url := full_url_of element in
  let title := default "" (h2_text element) in
  match cascade element with
  | None => Raised
  | Some (kilometers, year, price) =>
      let location := fallback_location element (inline_location element) in
      if negb (Notification.truthy_str listing_id) then NoIdentifier
      else Extracted
             {| id := listing_id; make := make; model := model;
                title := Some title; price := price; year := year;
                kilometers := kilometers; location := location;
                url := full_url; first_seen := now1; last_seen := now2;
                description := None |}
  end.

End Scraper.

(** ** src/scraper/autoscout.py: the page partitioner in [search] *)

Module Partitioner.
Import Models Scraper.

Local Open Scope string_scope.

(** A fetched page, as the answers to the queries [search] makes of the
    response text and of the parsed document. *)
Record Page := mkPage {
  header_title : option string;        (* the listHeaderTitle text found in response.text *)
  articles : list Element;             (* soup.find_all('article') *)
  listing_items : list Element;        (* soup.select on data-testid listing-item *)
  list_item_articles : list Element;   (* soup.select('.ListItem_article') *)
  main_content : option (list Element);
    (* the articles under the first div whose class has 'ListPage_main' *)
  recommendations_section : option (list Element)
    (* the articles under the first div whose class has 'Recommendations_recommendations' *)
}.

(** The number found in the header, when the header and a number in it are
    found and [int()] accepts it. *)
Definition reported_total (page : Page) : option Z :=
  header ← header_title page;
  number ← Py.search_number header;
  Py.int_of_str (Py.replace "." "" number).

(** The fallback classification: an article is a recommendation when one
    of its enclosing divs has a class with 'recommendation' in it. *)
Definition is_recommendation (article : Element) : bool :=
  existsb
    (λ classes, existsb (λ cls, Py.contains "recommendation" (Py.lower cls)) classes)
    (parent_div_classes article).

Definition listing_elements (page : Page) : list Element :=
  if Storage.truthy_list (articles page) then articles page
  else if Storage.truthy_list (listing_items page) then listing_items page
  else list_item_articles page.

(** The primary fragments by the selectors and the classification alone
    (lines 276-313 of [search]). *)
Definition classified (page : Page) : list Element :=
  match main_content page with
  | Some main_listings => main_listings
  | None => filter (λ a, is_recommendation a = false) (listing_elements page)
  end.

(** [main_listings] as [search] hands it to the extraction loop; the early
    [return []] exits give the empty list. *)
Definition select_listings (page : Page) : list Element :=
  let number := reported_total page in
  let total_results := default 0 number in
  if bool_decide (number = Some 0) then []
  else
    let listing_elements := listing_elements page in
    if negb (Storage.truthy_list listing_elements) then []
    else
      let main_listings := classified page in
      let main_listings :=
        if negb (Storage.truthy_list main_listings) && (0 <? total_results)%Z
        then listing_elements else main_listings in
      let main_listings :=
        if (0 <? total_results)%Z
           && (total_results <? Z.of_nat (length main_listings))%Z
        then take (Z.to_nat total_results) main_listings
        else main_listings in
      main_listings.

(** The extraction loop.  [clock] names the readings of [datetime.now()]
    by the place of the fragment: [clock (2i)] and [clock (2i+1)] are the
    two readings taken, one after the other, when the i-th fragment
    gives a record; a fragment that gives none takes no reading. *)
Fixpoint extract_all (clock : nat → Z) (k : nat) (make model : string)
    (elements : list Element) : list CarListing :=
  match elements with
  | [] => []
  | element :: rest =>
      let tail := extract_all clock (S (S k)) make model rest in
      match extract_listing_details element make model (clock k) (clock (S k)) with
      | Extracted listing => listing :: tail
      | NoIdentifier | Raised => tail
      end
  end.

(** What [search] returns for a page that was fetched. *)
Definition search_page (clock : nat → Z) (make model : string) (page : Page)
  : list CarListing :=
  extract_all clock 0 make model (select_listings page).

(** The part the reported total plays in [search], case by case. *)
Definition kept_by_total (page : Page) : list Element :=
  match listing_elements page with
  | [] => []
  | _ =>
      match reported_total page with
      | Some n =>
          if (n =? 0)%Z then []
          else if (0 <? n)%Z then
            take (Z.to_nat n)
                 (match classified page with
                  | [] => listing_elements page
                  | main_listings => main_listings
                  end)
          else classified page
      | None => classified page
      end
  end.

(** The fragments the truncation starts from: the primary ones, or all
    that were found when there is no primary one. *)
Definition candidates (page : Page) : list Element :=
  match classified page with
  | [] => listing_elements page
  | main_listings => main_listings
  end.

(** [search_params = params.copy()] with [make] and [models] set. *)
Definition with_make_model (params : QueryBuilder.SearchParams)
    (make model : string) : QueryBuilder.SearchParams :=
  {| QueryBuilder.make := make;
     QueryBuilder.models := [model];
     QueryBuilder.countries := QueryBuilder.countries params;
     QueryBuilder.year_range := QueryBuilder.year_range params;
     QueryBuilder.max_kilometers := QueryBuilder.max_kilometers params;
     QueryBuilder.price_range := QueryBuilder.price_range params;
     QueryBuilder.search_id := QueryBuilder.search_id params;
     QueryBuilder.body_type := QueryBuilder.body_type params;
     QueryBuilder.seats := QueryBuilder.seats params;
     QueryBuilder.fuel_type := QueryBuilder.fuel_type params;
     QueryBuilder.transmission := QueryBuilder.transmission params;
     QueryBuilder.doors := QueryBuilder.doors params;
     QueryBuilder.equipment := QueryBuilder.equipment params;
     QueryBuilder.color := QueryBuilder.color params;
     QueryBuilder.zip := QueryBuilder.zip params;
     QueryBuilder.zipr := QueryBuilder.zipr params |}.

Definition max_retries : nat := 3.

(** The retry loop of [search]: [fetch k] is the outcome of the k-th
    request, [None] for a [requests.RequestException] (time-out,
    connection error, error status).  [remaining] is
    [max_retries - retry_count]; both ways out of the loop after the last
    failure return the empty list. *)
Fixpoint search_attempts (remaining attempt : nat) (fetch : nat → option Page)
    (clock : nat → Z) (make model : string) : list CarListing :=
  match remaining with
  | O => []
  | S remaining' =>
      match fetch attempt with
      | Some page => search_page clock make model page
      | None => search_attempts remaining' (S attempt) fetch clock make model
      end
  end.

(** [search]: [None] when building the URL raises, which [search] does
    not catch. *)
Definition search (params : QueryBuilder.SearchParams)
    (fetch : string → nat → option Page) (clock : nat → Z)
    (make model : string) : option (list CarListing) :=
  url ← QueryBuilder.build_search_url (with_make_model params make model);
  Some (search_attempts max_retries 0 (fetch url) clock make model).

End Partitioner.

(** ** main.py: the reconciliation loop *)

Module Main.
Import Models Storage.

(** *** The search parameters [main] prepares (lines 145-197)

    A search entry of a configuration file.  A range is missing, null, a
    mapping, or another value (a number, a string, a list), of which only
    the truth value matters; a scalar filter is a value (null is [PNone])
    or missing; [equipment] is a value or missing.  [make] and the model
    are strings: line 139 joins the models as strings before the first
    search, and [search] declares both as [str]. *)
Inductive cfg_range :=
| CfgMissing
| CfgNull
| CfgMap (entries : list (string * QueryBuilder.pyval))
| CfgOther (truth : bool).

Record SearchConfig := mkSearchConfig {
  cfg_make : string;
  cfg_price_range : cfg_range;
  cfg_year_range : cfg_range;
  cfg_max_kilometers : option QueryBuilder.pyval;
  cfg_body_type : option QueryBuilder.pyval;
  cfg_seats : cfg_range;
  cfg_fuel_type : option QueryBuilder.pyval;
  cfg_transmission : option QueryBuilder.pyval;
  cfg_doors : cfg_range;
  cfg_equipment : option QueryBuilder.pyobj;
  cfg_color : option QueryBuilder.pyval;
  cfg_zip : option QueryBuilder.pyval;
  cfg_zipr : option QueryBuilder.pyval
}.

(** [d.get(key)] on a mapping of the configuration. *)
Fixpoint dict_get (key : string) (entries : list (string * QueryBuilder.pyval))
  : QueryBuilder.pyval :=
  match entries with
  | [] => QueryBuilder.PNone
  | (k, v) :: rest => if String.eqb k key then v else dict_get key rest
  end.

(** [if key in search and search[key]]: the range is handed on when its
    value is true; a mapping that is not empty reaches the builder as a
    dict, another true value as something without [get]. *)
Definition pass_range (r : cfg_range) : QueryBuilder.range_arg :=
  match r with
  | CfgMap ((_ :: _) as entries) =>
      QueryBuilder.RangeDict (dict_get "min" entries) (dict_get "max" entries)
  | CfgOther true => QueryBuilder.RangeOther
  | CfgMap [] | CfgOther false | CfgNull | CfgMissing =>
      QueryBuilder.RangeAbsent
  end.

(** [if key in search and search[key]] for a scalar: what
    [params.get(key)] answers in the builder. *)
Definition pass_truthy (v : option QueryBuilder.pyval) : QueryBuilder.pyval :=
  match v with
  | Some v => if QueryBuilder.truthy v then v else QueryBuilder.PNone
  | None => QueryBuilder.PNone
  end.

(** [if key in search and search[key] is not None]. *)
Definition pass_not_none (v : option QueryBuilder.pyval) : QueryBuilder.pyval :=
  match v with
  | Some v => v
  | None => QueryBuilder.PNone
  end.

(** [if key in search and search[key]] for [equipment]: what
    [params.get(key)] answers in the builder. *)
Definition pass_obj (o : option QueryBuilder.pyobj) : QueryBuilder.pyobj :=
  match o with
  | Some o =>
      if QueryBuilder.obj_truthy o then o
      else QueryBuilder.Scalar QueryBuilder.PNone
  | None => QueryBuilder.Scalar QueryBuilder.PNone
  end.

(** [search_params] as [main] fills it, with the [make] and [models] that
    [search] adds.  [general_countries] is what the [general] section of
    the file holds under [countries], [None] when it has no such key: a
    null entry is handed on as it is, only a missing one gets the
    default. *)
Definition search_params_for (general_countries : option QueryBuilder.pyobj)
    (search : SearchConfig) (model : string) : QueryBuilder.SearchParams :=
  {| QueryBuilder.make := cfg_make search;
     QueryBuilder.models := [model];
     QueryBuilder.countries :=
       Some (default (QueryBuilder.Container [QueryBuilder.PStr "DE"])
                     general_countries);
     QueryBuilder.year_range := pass_range (cfg_year_range search);
     QueryBuilder.max_kilometers := pass_not_none (cfg_max_kilometers search);
     QueryBuilder.price_range := pass_range (cfg_price_range search);
     QueryBuilder.search_id := QueryBuilder.PNone;
     QueryBuilder.body_type := pass_not_none (cfg_body_type search);
     QueryBuilder.seats := pass_range (cfg_seats search);
     QueryBuilder.fuel_type := pass_truthy (cfg_fuel_type search);
     QueryBuilder.transmission := pass_truthy (cfg_transmission search);
     QueryBuilder.doors := pass_range (cfg_doors search);
     QueryBuilder.equipment := pass_obj (cfg_equipment search);
     QueryBuilder.color := pass_not_none (cfg_color search);
     QueryBuilder.zip := pass_truthy (cfg_zip search);
     QueryBuilder.zipr := pass_not_none (cfg_zipr search) |}.

(** The truth value of a bound of a range of the configuration. *)
Definition cfg_bound_truthy (r : cfg_range) (key : string) : bool :=
  match r with
  | CfgMap entries => QueryBuilder.truthy (dict_get key entries)
  | CfgOther _ | CfgNull | CfgMissing => false
  end.

(** The truth value of the [equipment] entry. *)
Definition cfg_obj_truthy (o : option QueryBuilder.pyobj) : bool :=
  match o with
  | Some o => QueryBuilder.obj_truthy o
  | None => false
  end.

(** A range of the configuration that [main] hands on and on which the
    builder finds no [get]. *)
Definition cfg_range_raises (r : cfg_range) : bool :=
  match r with
  | CfgOther true => true
  | _ => false
  end.

(** The entries of a search on which [build_search_url] raises: countries
    that cannot be iterated over, a range that is true and not a mapping,
    equipment that is true and cannot be iterated over. *)
Definition builder_raises (general_countries : option QueryBuilder.pyobj)
    (search : SearchConfig) : bool :=
  negb (QueryBuilder.countries_iterable
          (Some (default (QueryBuilder.Container [QueryBuilder.PStr "DE"])
                         general_countries)))
  || cfg_range_raises (cfg_year_range search)
  || cfg_range_raises (cfg_price_range search)
  || cfg_range_raises (cfg_seats search)
  || cfg_range_raises (cfg_doors search)
  || negb (QueryBuilder.equipment_iterable
             (default (QueryBuilder.Scalar QueryBuilder.PNone)
                      (cfg_equipment search))).

Definition cfg_truthy (v : option QueryBuilder.pyval) : bool :=
  match v with
  | Some v => QueryBuilder.truthy v
  | None => false
  end.

(** What one cycle accumulates next to the database. *)
Record cycle_state := mkCycle {
  all_current_ids : list string;
  new_listings : nat;
  updated_listings : nat;
  notified : list CarListing        (* calls of notifier.notify_new_listing *)
}.

Definition start_cycle : cycle_state := mkCycle [] 0 0 [].

(** The body of [for listing in listings], with [now] the reading of
    [datetime.now()] in the update branch. *)
Definition process_listing (listing : CarListing) (now : Z) (c : cycle_state)
  : DB cycle_state :=
  let ids := all_current_ids c ++ [id listing] in
  existing_listing ← get_listing (id listing);
  match existing_listing with
  | None =>
      add_listing listing;;
      mret (mkCycle ids (S (new_listings c)) (updated_listings c)
                    (notified c ++ [listing]))
  | Some existing_listing =>
      let existing_listing := set_last_seen now existing_listing in
      add_listing existing_listing;;
      mret (mkCycle ids (new_listings c) (S (updated_listings c)) (notified c))
  end.

(** All listings of a cycle, each with the clock reading of its turn. *)
Fixpoint process_all (observed : list (CarListing * Z)) (c : cycle_state)
  : DB cycle_state :=
  match observed with
  | [] => mret c
  | (listing, now) :: rest =>
      c' ← process_listing listing now c; process_all rest c'
  end.

(** One pass of the [while True] loop: the searches, then the removal
    pass; the result is the cycle's counters and [removed_count]. *)
Definition run_cycle (observed : list (CarListing * Z)) : DB (cycle_state * nat) :=
  c ← process_all observed start_cycle;
  removed_count ← remove_old_listings (all_current_ids c);
  mret (c, removed_count).

(** Consecutive cycles; the table after the last one. *)
Fixpoint run_cycles (cycles : list (list (CarListing * Z))) (s : db_state)
  : db_state :=
  match cycles with
  | [] => s
  | observed :: rest => run_cycles rest (run_cycle observed s).2
  end.

(** The last clock reading at which [k] was observed. *)
Fixpoint last_observed (k : string) (observed : list (CarListing * Z))
  : option Z :=
  match observed with
  | [] => None
  | (listing, now) :: rest =>
      match last_observed k rest with
      | Some t => Some t
      | None => if bool_decide (id listing = k) then Some now else None
      end
  end.

(** What the listings of one cycle make of the row of [k]: the first
    observation of an id that is not stored creates the row as extracted,
    every observation of a stored id moves its [last_seen]. *)
Fixpoint reconcile (k : string) (stored : option CarListing)
    (observed : list (CarListing * Z)) : option CarListing :=
  match observed with
  | [] => stored
  | (listing, now) :: rest =>
      if bool_decide (id listing = k)
      then reconcile k (Some (match stored with
                              | Some existing => set_last_seen now existing
                              | None => listing
                              end)) rest
      else reconcile k stored rest
  end.


End Main.

(** ** check_db.py: the status report *)

Module CheckDb.
Import Models.

Local Open Scope string_scope.

Definition make_model (listing : CarListing) : string :=
  make listing ++ " " ++ model listing.

(** The body of the loop that groups the listings: a key that is not yet
    in [makes] is entered with 0, then its count goes up by one. *)
Definition count_one (makes : gmap string nat) (listing : CarListing)
  : gmap string nat :=
  let key := make_model listing in
  let makes :=
    match makes !! key with
    | None => <[key := 0%nat]> makes
    | Some _ => makes
    end in
  <[key := S (default 0%nat (makes !! key))]> makes.

(** [makes] after the loop over [listings]. *)
Definition count_by_make_model (listings : list CarListing) : gmap string nat :=
  foldl count_one ∅ listings.

(** How many of the listings have the key. *)
Definition occurrences (key : string) (listings : list CarListing) : nat :=
  length (filter (λ l, make_model l = key) listings).

End CheckDb.

(** ** Concrete data used by the examples below *)

Module Examples.
Import Models Storage.

Local Open Scope string_scope.

Definition camper (k : string) (p seen : Z) : CarListing :=
  {| id := k; make := "Volkswagen"; model := "T5"; price := p; year := 2010;
     kilometers := 120000; location := "Wien 1010";
     url := "https://www.autoscout24.de/angebote/" ++ k;
     first_seen := seen; last_seen := seen;
     title := Some "Volkswagen T5 Camper"; description := None |}.

(** A store holding the ids A, B and C. *)
Definition store_abc : db_state :=
  mkDb (<["A" := camper "A" 15000 100]>
        (<["B" := camper "B" 18000 100]>
         (<["C" := camper "C" 21000 100]> ∅))) [].

(** A fragment with an id and a title and nothing else. *)
Definition plain_article (k : string) : Scraper.Element :=
  {| Scraper.attrs := {[ "id" := k ]};
     Scraper.link_href := Some ("/angebote/" ++ k);
     Scraper.h2_text := Some "Volkswagen T5 Camper";
     Scraper.vehicle_details := Scraper.NoMatch;
     Scraper.tracking := Scraper.NoMatch;
     Scraper.price_object := Scraper.NoMatch;
     Scraper.location_text := None;
     Scraper.parent_div_classes := [] |}.

(** A page with one article in its main results region, and the header
    text it reports. *)
Definition page_with_header (header : option string) : Partitioner.Page :=
  {| Partitioner.header_title := header;
     Partitioner.articles := [plain_article "abc-1"];
     Partitioner.listing_items := [];
     Partitioner.list_item_articles := [];
     Partitioner.main_content := Some [plain_article "abc-1"];
     Partitioner.recommendations_section := None |}.

(** A fragment under a div of recommendations. *)
Definition recommended_article (k : string) : Scraper.Element :=
  {| Scraper.attrs := {[ "id" := k ]};
     Scraper.link_href := Some ("/angebote/" ++ k);
     Scraper.h2_text := Some "Volkswagen T5 Camper";
     Scraper.vehicle_details := Scraper.NoMatch;
     Scraper.tracking := Scraper.NoMatch;
     Scraper.price_object := Scraper.NoMatch;
     Scraper.location_text := None;
     Scraper.parent_div_classes :=
       [["ListItem_wrapper"]; ["Recommendations_list"; "css-1"]] |}.

(** A page without a main results region on which every article is under
    a div of recommendations, while the header reports two results. *)
Definition page_only_recommended : Partitioner.Page :=
  {| Partitioner.header_title := Some "2 Angebote";
     Partitioner.articles :=
       [recommended_article "r1"; recommended_article "r2";
        recommended_article "r3"];
     Partitioner.listing_items := [];
     Partitioner.list_item_articles := [];
     Partitioner.main_content := None;
     Partitioner.recommendations_section := None |}.

(** A fragment whose inline attributes give the price 15990 and no
    mileage, with a tracking object and a price object that give other
    prices. *)
Definition article_three_prices : Scraper.Element :=
  {| Scraper.attrs :=
       <["id" := "abc-2"]>
         (<["data-price" := "15990"]>
            (<["data-first-registration" := "03-2015"]> ∅));
     Scraper.link_href := Some "/angebote/abc-2";
     Scraper.h2_text := Some "Volkswagen T5 Camper";
     Scraper.vehicle_details := Scraper.NoMatch;
     Scraper.tracking :=
       Scraper.Parsed [("price", Scraper.JStr "14000");
                       ("mileage", Scraper.JStr "120000")];
     Scraper.price_object :=
       Scraper.Parsed [("priceFormatted", Scraper.JStr "EUR 13.000,-")];
     Scraper.location_text := Some "Wien";
     Scraper.parent_div_classes := [] |}.

(** A fragment whose three inline attributes are given, with embedded
    JSON whose values have the wrong types. *)
Definition article_inline_complete : Scraper.Element :=
  {| Scraper.attrs :=
       <["data-mileage" := "98000"]>
         (<["data-price" := "15990"]>
            (<["data-first-registration" := "03-2015"]> ∅));
     Scraper.link_href := Some "/angebote/vw-t5-abc-4";
     Scraper.h2_text := Some "Volkswagen T5 Camper";
     Scraper.vehicle_details := Scraper.Parsed [Scraper.JInt 7];
     Scraper.tracking :=
       Scraper.Parsed [("firstRegistration", Scraper.JInt 2015)];
     Scraper.price_object := Scraper.DecodeError;
     Scraper.location_text := None;
     Scraper.parent_div_classes := [] |}.

(** A fragment whose inline price attribute is a negative number. *)
Definition article_negative_price : Scraper.Element :=
  {| Scraper.attrs := <["id" := "abc-3"]> (<["data-price" := "-500"]> ∅);
     Scraper.link_href := Some "/angebote/abc-3";
     Scraper.h2_text := Some "Volkswagen T5 Camper";
     Scraper.vehicle_details := Scraper.NoMatch;
     Scraper.tracking := Scraper.NoMatch;
     Scraper.price_object := Scraper.NoMatch;
     Scraper.location_text := None;
     Scraper.parent_div_classes := [] |}.

(** A fragment with an id and no inline mileage, whose [vehicleDetails]
    array has a mileage entry with null for its data. *)
Definition article_null_detail : Scraper.Element :=
  {| Scraper.attrs := {[ "id" := "abc-5" ]};
     Scraper.link_href := Some "/angebote/abc-5";
     Scraper.h2_text := Some "Volkswagen T5 Camper";
     Scraper.vehicle_details :=
       Scraper.Parsed
         [Scraper.JObj [("iconName", Scraper.JStr "mileage_road");
                        ("data", Scraper.JNull)]];
     Scraper.tracking := Scraper.NoMatch;
     Scraper.price_object := Scraper.NoMatch;
     Scraper.location_text := None;
     Scraper.parent_div_classes := [] |}.

(** A search with a minimum price of 0 and a maximum of 5000. *)
Definition search_from_zero : QueryBuilder.SearchParams :=
  {| QueryBuilder.make := "Volkswagen";
     QueryBuilder.models := ["T5"];
     QueryBuilder.countries :=
       Some (QueryBuilder.Container
               [QueryBuilder.PStr "AT"; QueryBuilder.PStr "DE"]);
     QueryBuilder.year_range := QueryBuilder.RangeAbsent;
     QueryBuilder.max_kilometers := QueryBuilder.PNone;
     QueryBuilder.price_range :=
       QueryBuilder.RangeDict (QueryBuilder.PInt 0) (QueryBuilder.PInt 5000);
     QueryBuilder.search_id := QueryBuilder.PNone;
     QueryBuilder.body_type := QueryBuilder.PNone;
     QueryBuilder.seats := QueryBuilder.RangeAbsent;
     QueryBuilder.fuel_type := QueryBuilder.PNone;
     QueryBuilder.transmission := QueryBuilder.PNone;
     QueryBuilder.doors := QueryBuilder.RangeAbsent;
     QueryBuilder.equipment := QueryBuilder.Scalar QueryBuilder.PNone;
     QueryBuilder.color := QueryBuilder.PNone;
     QueryBuilder.zip := QueryBuilder.PNone;
     QueryBuilder.zipr := QueryBuilder.PNone |}.

End Examples.

(** * Properties *)

(** ** The removal pass *)

Section RemovalPass.
Import Models Storage.

Lemma truthy_list_true {A} (l : list A) : l ≠ [] → truthy_list l = true.
Proof. by destruct l. Qed.

(** The removal pass on a non-empty list, unfolded. *)
Lemma remove_old_listings_nonempty (current_ids : list string) (s : db_state) :
  current_ids ≠ [] →
  remove_old_listings current_ids s =
    (size (not_in current_ids (rows s)),
     mkDb (keep_in current_ids (rows s))
          (executed s ++ [CountNotIn current_ids; DeleteNotIn current_ids])).
Proof.
  intros Hne. unfold remove_old_listings.
  rewrite (truthy_list_true _ Hne). simpl.
  unfold mbind, db_bind, execute_count, execute, mret, db_ret. simpl.
  by rewrite <- app_assoc.
Qed.

Lemma keep_in_lookup (ids : list string) (t : gmap string CarListing) k r :
  keep_in ids t !! k = Some r ↔ t !! k = Some r ∧ k ∈ ids.
Proof. unfold keep_in. by rewrite map_lookup_filter_Some. Qed.

Lemma not_in_lookup (ids : list string) (t : gmap string CarListing) k r :
  not_in ids t !! k = Some r ↔ t !! k = Some r ∧ k ∉ ids.
Proof. unfold not_in. by rewrite map_lookup_filter_Some. Qed.

(** The rows split into those kept and those counted. *)
Lemma keep_in_not_in_size (ids : list string) (t : gmap string CarListing) :
  (size (keep_in ids t) + size (not_in ids t))%nat = size t.
Proof.
  unfold keep_in, not_in.
  rewrite <- (map_size_disj_union _ _ (map_disjoint_filter_complement _ t)).
  by rewrite map_filter_union_complement.
Qed.

Lemma not_in_dom (ids : list string) (t : gmap string CarListing) :
  dom (not_in ids t) = dom t ∖ list_to_set ids.
Proof.
  apply dom_filter_L. intros k. rewrite elem_of_difference, elem_of_dom.
  rewrite elem_of_list_to_set. simpl. split.
  - intros [[r Hr] Hk]. eauto.
  - intros (r & Hr & Hk). eauto.
Qed.

End RemovalPass.

Section RemovalClaims.
Import Models Storage Examples.

(** C3: for every store state, the removal pass run with an empty
    [current_ids] deletes no row and reports 0: the database, rows and
    statement log alike, is the one it started from.  So a cycle in which
    no listing is observed leaves every stored row in place and reports 0
    removed listings. *)
Theorem C3_empty_cycle_removes_nothing (s : db_state) :
  remove_old_listings [] s = (0%nat, s)
  ∧ rows (Main.run_cycle [] s).2 = rows s
  ∧ (Main.run_cycle [] s).1.2 = 0%nat.
Proof.
  split; [reflexivity |].
  unfold Main.run_cycle, Main.process_all, mbind, db_bind, mret, db_ret.
  cbn [Main.all_current_ids Main.start_cycle].
  change (remove_old_listings [] s) with (0%nat, s). by split.
Qed.

(** C4: for every store state and every non-empty [current_ids], the rows
    left by the removal pass are exactly the stored rows whose id is in
    [current_ids], each unchanged; the rows gone are exactly those whose
    id is not in it, and their number is the count returned. *)
Theorem C4_removal_deletes_exactly_the_unseen
    (current_ids : list string) (s : db_state) :
  current_ids ≠ [] →
  let '(removed, s') := remove_old_listings current_ids s in
  (∀ k r, rows s' !! k = Some r ↔ rows s !! k = Some r ∧ k ∈ current_ids)
  ∧ (∀ k, k ∈ dom (rows s) ∖ dom (rows s') ↔ k ∈ dom (rows s) ∧ k ∉ current_ids)
  ∧ removed = size (dom (rows s) ∖ list_to_set current_ids)
  ∧ (size (rows s') + removed)%nat = size (rows s).
Proof.
  intros Hne. rewrite (remove_old_listings_nonempty _ _ Hne). simpl.
  split; [| split; [| split]].
  - intros k r. apply keep_in_lookup.
  - intros k. rewrite elem_of_difference, !elem_of_dom. split.
    + intros [[r Hr] Hgone]. split; [eauto |]. intros Hin. apply Hgone.
      exists r. by apply keep_in_lookup.
    + intros [[r Hr] Hnot]. split; [eauto |]. intros [r' Hr'].
      apply keep_in_lookup in Hr'. tauto.
  - by rewrite <- not_in_dom, size_dom.
  - apply keep_in_not_in_size.
Qed.

(** With stored ids A, B, C and [current_ids = [A; C]], exactly B is
    deleted and the count is 1. *)
Lemma C4_removal_witness :
  (remove_old_listings ["A"; "C"] store_abc).1 = 1%nat
  ∧ dom (rows (remove_old_listings ["A"; "C"] store_abc).2) = {["A"; "C"]}
  ∧ ∀ k, k ∈ dom (rows store_abc)
           ∖ dom (rows (remove_old_listings ["A"; "C"] store_abc).2)
         ↔ k ∈ dom (rows store_abc) ∧ k ∉ ["A"; "C"].
Proof.
  pose proof (C4_removal_deletes_exactly_the_unseen ["A"; "C"] store_abc) as H.
  destruct (remove_old_listings ["A"; "C"] store_abc) as [removed s'] eqn:E.
  split; [| split].
  - by vm_compute in E; inversion E.
  - by vm_compute in E; inversion E.
  - apply H. discriminate.
Defined.

(** C10: in [remove_old_listings] the full-table delete is never
    executed.  For every input the statements the call adds to the log do
    not contain [DeleteAll]: they are none for an empty [current_ids] and
    the guarded count and delete otherwise; and every row whose id is in
    [current_ids] is still stored, unchanged, after the call. *)
Theorem C10_full_delete_unreachable (current_ids : list string) (s : db_state) :
  ∃ issued,
    executed (remove_old_listings current_ids s).2 = (executed s ++ issued)
    ∧ (DeleteAll ∉ issued)
    ∧ (issued = []
       ∨ issued = [CountNotIn current_ids; DeleteNotIn current_ids]
         ∧ current_ids ≠ [])
    ∧ ∀ k r, k ∈ current_ids → rows s !! k = Some r →
             rows (remove_old_listings current_ids s).2 !! k = Some r.
Proof.
  destruct current_ids as [| i ids].
  - exists []. simpl. rewrite app_nil_r.
    split; [done |]. split; [apply not_elem_of_nil |]. split; [by left |].
    by intros k r Hk%elem_of_nil.
  - rewrite remove_old_listings_nonempty by discriminate. simpl.
    exists [CountNotIn (i :: ids); DeleteNotIn (i :: ids)].
    split; [done |]. split; [| split].
    + intros Hin.
      repeat (apply elem_of_cons in Hin as [Hin | Hin]; [discriminate |]).
      by apply elem_of_nil in Hin.
    + right. split; [done | discriminate].
    + intros k r Hk Hr. by apply keep_in_lookup.
Qed.

End RemovalClaims.

(** ** The reconciliation step *)

Section Reconciliation.
Import Models Storage Main.

Lemma set_last_seen_twice t t' e :
  set_last_seen t (set_last_seen t' e) = set_last_seen t e.
Proof. reflexivity. Qed.

(** The update branch, unfolded. *)
Lemma process_listing_known listing now c s existing :
  rows s !! id listing = Some existing →
  process_listing listing now c s =
    (mkCycle (all_current_ids c ++ [id listing]) (new_listings c)
             (S (updated_listings c)) (notified c),
     mkDb (<[id existing := set_last_seen now existing]> (rows s))
          (executed s ++ [SelectById (id listing);
                          InsertOrReplace (set_last_seen now existing)])).
Proof.
  intros H. unfold process_listing, get_listing, fetchone, add_listing, execute.
  unfold mbind, db_bind, mret, db_ret. simpl. rewrite H. simpl.
  by rewrite <- app_assoc.
Qed.

(** The creation branch, unfolded. *)
Lemma process_listing_unknown listing now c s :
  rows s !! id listing = None →
  process_listing listing now c s =
    (mkCycle (all_current_ids c ++ [id listing]) (S (new_listings c))
             (updated_listings c) (notified c ++ [listing]),
     mkDb (<[id listing := listing]> (rows s))
          (executed s ++ [SelectById (id listing); InsertOrReplace listing])).
Proof.
  intros H. unfold process_listing, get_listing, fetchone, add_listing, execute.
  unfold mbind, db_bind, mret, db_ret. simpl. rewrite H. simpl.
  by rewrite <- app_assoc.
Qed.

Lemma table_ok_insert (t : gmap string CarListing) r :
  table_ok t → table_ok (<[id r := r]> t).
Proof.
  intros Hok k r' Hk. destruct (decide (id r = k)) as [<- | Hne].
  - rewrite lookup_insert_eq in Hk. by inversion Hk.
  - rewrite lookup_insert_ne in Hk by done. by apply Hok.
Qed.

Lemma table_ok_keep_in ids (t : gmap string CarListing) :
  table_ok t → table_ok (keep_in ids t).
Proof.
  intros Hok k r Hk. unfold keep_in in Hk.
  apply map_lookup_filter_Some in Hk as [Hk _]. by apply Hok.
Qed.

(** One processed listing: the table stays well keyed, the id joins
    [all_current_ids], and a row stored under [k] keeps every column but
    [last_seen], which moves only when the listing is the one of [k]. *)
Lemma process_listing_row listing now c s k e :
  table_ok (rows s) → rows s !! k = Some e →
  let '(c', s') := process_listing listing now c s in
  table_ok (rows s')
  ∧ all_current_ids c' = all_current_ids c ++ [id listing]
  ∧ rows s' !! k =
      Some (if bool_decide (id listing = k) then set_last_seen now e else e).
Proof.
  intros Hok Hk.
  destruct (rows s !! id listing) as [existing |] eqn:Hex.
  - rewrite (process_listing_known _ _ _ _ _ Hex). simpl.
    pose proof (Hok _ _ Hex) as Hid.
    split; [| split; [done |]].
    + change (id existing) with (id (set_last_seen now existing)).
      by apply table_ok_insert.
    + rewrite Hid. case_bool_decide as Hd.
      * subst k. rewrite lookup_insert_eq. congruence.
      * by rewrite lookup_insert_ne.
  - rewrite (process_listing_unknown _ _ _ _ Hex). simpl.
    split; [by apply table_ok_insert | split; [done |]].
    case_bool_decide as Hd; [congruence |]. by rewrite lookup_insert_ne.
Qed.

Lemma process_all_row observed : ∀ c s k e,
  table_ok (rows s) → rows s !! k = Some e →
  let '(c', s') := process_all observed c s in
  table_ok (rows s')
  ∧ all_current_ids c' = all_current_ids c ++ map (λ o, id o.1) observed
  ∧ rows s' !! k =
      Some (match last_observed k observed with
            | Some t => set_last_seen t e
            | None => e
            end).
Proof.
  induction observed as [| [listing now] rest IH]; intros c s k e Hok Hk.
  - simpl. unfold mret, db_ret. by rewrite app_nil_r.
  - simpl. unfold mbind, db_bind.
    pose proof (process_listing_row listing now c s k e Hok Hk) as H1.
    destruct (process_listing listing now c s) as [c1 s1].
    destruct H1 as (Hok1 & Hids1 & Hk1).
    pose proof (IH c1 s1 k _ Hok1 Hk1) as H2.
    destruct (process_all rest c1 s1) as [c2 s2].
    destruct H2 as (Hok2 & Hids2 & Hk2).
    split; [done | split].
    + rewrite Hids2, Hids1. by rewrite <- app_assoc.
    + rewrite Hk2. f_equal.
      destruct (last_observed k rest); case_bool_decide; done.
Qed.

Lemma last_observed_in k observed :
  is_Some (last_observed k observed) → k ∈ map (λ o, id o.1) observed.
Proof.
  induction observed as [| [listing now] rest IH]; simpl.
  - by intros [? ?].
  - destruct (last_observed k rest) as [t' |].
    + intros _. apply elem_of_cons. right. apply IH. eauto.
    + case_bool_decide as Hd; [| by intros [? ?]].
      intros _. apply elem_of_cons. by left.
Qed.

(** A whole cycle in which [k] is observed. *)
Lemma run_cycle_row observed s k e t :
  table_ok (rows s) → rows s !! k = Some e →
  last_observed k observed = Some t →
  table_ok (rows (run_cycle observed s).2)
  ∧ rows (run_cycle observed s).2 !! k = Some (set_last_seen t e).
Proof.
  intros Hok Hk Hlast. unfold run_cycle, mbind, db_bind.
  pose proof (process_all_row observed start_cycle s k e Hok Hk) as H.
  destruct (process_all observed start_cycle s) as [c1 s1].
  destruct H as (Hok1 & Hids & Hk1). rewrite Hlast in Hk1.
  simpl in Hids.
  assert (Hin : k ∈ all_current_ids c1)
    by (rewrite Hids; apply last_observed_in; eauto).
  assert (Hne : all_current_ids c1 ≠ [])
    by (intros E; rewrite E in Hin; by apply elem_of_nil in Hin).
  rewrite (remove_old_listings_nonempty _ _ Hne). simpl.
  split; [by apply table_ok_keep_in |]. by apply keep_in_lookup.
Qed.

End Reconciliation.

Section ReconciliationClaims.
Import Models Storage Main Examples.

Local Open Scope string_scope.

Lemma table_ok_empty : table_ok ∅.
Proof. intros k r Hk. by rewrite lookup_empty in Hk. Qed.

Lemma store_abc_ok : table_ok (rows store_abc).
Proof.
  unfold store_abc. simpl.
  change "A" with (id (camper "A" 15000 100)).
  apply table_ok_insert.
  change "B" with (id (camper "B" 18000 100)).
  apply table_ok_insert.
  change "C" with (id (camper "C" 21000 100)).
  apply table_ok_insert, table_ok_empty.
Qed.

(** C1 as stated fails: the listing A is stored with price 15000 and is
    observed again with price 9999; after the reconciliation step the
    stored price is still 15000, not the observed one. *)
Lemma C1_counterexample :
  let listing := camper "A" 9999 200 in
  rows store_abc !! id listing = Some (camper "A" 15000 100)
  ∧ ∃ stored,
      rows (process_listing listing 200 start_cycle store_abc).2 !! id listing
        = Some stored
      ∧ price stored = 15000
      ∧ price stored ≠ price listing.
Proof.
  simpl. split; [by vm_compute |].
  exists (set_last_seen 200 (camper "A" 15000 100)).
  split; [by vm_compute | split; [reflexivity | discriminate]].
Qed.

(** C1, amended: for every listing extracted in a cycle whose id is
    already in the store, the reconciliation step writes the stored record
    back with [last_seen] set to the current time and every other column
    (price, year, kilometers, location, url, title, first_seen) as it was
    stored; no other row changes; the listing counts as updated, not as
    new, and no notification is sent. *)
Theorem C1_known_listing_is_refreshed
    (listing : CarListing) (now : Z) (c : cycle_state) (s : db_state)
    (existing : CarListing) :
  table_ok (rows s) →
  rows s !! id listing = Some existing →
  let '(c', s') := process_listing listing now c s in
  rows s' !! id listing = Some (set_last_seen now existing)
  ∧ (∀ k, k ≠ id listing → rows s' !! k = rows s !! k)
  ∧ updated_listings c' = S (updated_listings c)
  ∧ new_listings c' = new_listings c
  ∧ notified c' = notified c.
Proof.
  intros Hok Hex. rewrite (process_listing_known _ _ _ _ _ Hex).
  rewrite (Hok _ _ Hex). simpl. split; [| split; [| done]].
  - by rewrite lookup_insert_eq.
  - intros k Hk. by rewrite lookup_insert_ne.
Qed.

Lemma C1_known_listing_witness :
  let '(c', s') :=
    process_listing (camper "A" 9999 200) 200 start_cycle store_abc in
  rows s' !! "A" = Some (set_last_seen 200 (camper "A" 15000 100))
  ∧ (∀ k, k ≠ "A" → rows s' !! k = rows store_abc !! k)
  ∧ updated_listings c' = 1%nat
  ∧ new_listings c' = 0%nat
  ∧ notified c' = [].
Proof.
  apply (C1_known_listing_is_refreshed (camper "A" 9999 200) 200 start_cycle
           store_abc (camper "A" 15000 100)).
  - apply store_abc_ok.
  - by vm_compute.
Defined.

(** C5: [first_seen] is immutable once set.  For a listing stored under
    [k] and any number of consecutive cycles that each observe [k] again,
    the row is still stored after the last cycle, with the [first_seen] it
    had and with [last_seen] at the clock reading of its latest
    observation. *)
Theorem C5_first_seen_immutable
    (k : string) (e : CarListing) (cycles : list (list (CarListing * Z)))
    (s : db_state) :
  table_ok (rows s) →
  rows s !! k = Some e →
  Forall (λ observed, is_Some (last_observed k observed)) cycles →
  ∃ e', rows (run_cycles cycles s) !! k = Some e'
        ∧ first_seen e' = first_seen e
        ∧ match last cycles with
          | Some observed => Some (last_seen e') = last_observed k observed
          | None => e' = e
          end.
Proof.
  revert s e. induction cycles as [| observed rest IH]; intros s e Hok Hk Hall.
  - exists e. by simpl.
  - apply Forall_cons in Hall as [[t Ht] Hrest].
    destruct (run_cycle_row observed s k e t Hok Hk Ht) as [Hok1 Hk1].
    destruct (IH _ _ Hok1 Hk1 Hrest) as (e' & He' & Hfirst & Hlast).
    exists e'. simpl. split; [done | split; [done |]].
    destruct rest as [| next rest'].
    + simpl in *. subst e'. by rewrite Ht.
    + change (last (observed :: next :: rest')) with (last (next :: rest')).
      destruct (last (next :: rest')) eqn:E; [exact Hlast |].
      by apply last_None in E.
Qed.

Lemma C5_first_seen_witness :
  ∃ e', rows (run_cycles [[(camper "A" 9999 200, 200)];
                          [(camper "B" 1 250, 250); (camper "A" 9000 300, 300)]]
                store_abc) !! "A" = Some e'
        ∧ first_seen e' = 100
        ∧ Some (last_seen e') = Some 300.
Proof.
  apply (C5_first_seen_immutable "A" (camper "A" 15000 100)
           [[(camper "A" 9999 200, 200)];
            [(camper "B" 1 250, 250); (camper "A" 9000 300, 300)]]
           store_abc).
  - apply store_abc_ok.
  - by vm_compute.
  - apply Forall_cons_2; [by exists 200 |].
    apply Forall_cons_2; [by exists 300 |].
    apply Forall_nil_2.
Defined.

End ReconciliationClaims.

(** ** Title cleanup *)

Section TitleCleanup.
Import Models Notification.

Local Open Scope string_scope.

(** When the raw title needs no normalisation the loop is the cascade it
    is meant to be: the comparison with [listing.title] is then a
    comparison with the string before the pattern. *)
Lemma strip_patterns_on_clean ps t :
  strip_patterns ps t t = strip_first_changing ps t.
Proof.
  induction ps as [| p ps IH]; simpl; [done |].
  destruct (String.eqb (sub_prefix p t) t) eqn:E; simpl; [| done].
  apply String.eqb_eq in E. by rewrite E.
Qed.

(** C8: the cascade is meant to go on to the next pattern while the string
    is unchanged, but the loop compares with the raw [listing.title].  For
    the title "Volkswagen Camper ****" (make Volkswagen, model T5) the
    removal of the asterisks already makes the string differ from the raw
    title: the first pattern matches nothing and leaves the string as it
    is, the loop stops all the same, and the pattern for the make alone,
    which would leave "Camper", is never tried. *)
Theorem C8_cascade_stops_without_a_change :
  let raw := "Volkswagen Camper ****" in
  let listing := mkCarListing "X" "Volkswagen" "T5" 0 0 0 "" "" 0 0 (Some raw) None in
  let clean := normalize_title raw in
  clean = "Volkswagen Camper "
  ∧ sub_prefix [Lit "Volkswagen"; SpaceStar; Lit "T5"; SpaceStar] clean = clean
  ∧ sub_prefix [Lit "VolkswagenT5"; SpaceStar] clean = clean
  ∧ sub_prefix [Lit "Volkswagen"; SpaceStar] clean = "Camper "
  ∧ title_str listing = "Volkswagen Camper"
  ∧ Py.strip (strip_first_changing (patterns "Volkswagen" "T5") clean) = "Camper".
Proof. vm_compute. repeat split. Qed.

End TitleCleanup.

(** ** The query builder *)

Section QueryBuilderClaims.
Import QueryBuilder Examples.

Local Open Scope string_scope.

Lemma existsb_opt_param (f : string → bool) key v :
  existsb f (opt_param key v) = truthy v && f (key ++ "=" ++ py_str v).
Proof.
  unfold opt_param. destruct (truthy v); simpl; [| done].
  by rewrite orb_false_r.
Qed.

(** A value that is true yields something when it is iterated over. *)
Lemma iterate_truthy e yields :
  obj_truthy e = true → iterate e = Some yields → yields ≠ [].
Proof.
  destruct e as [[| b | z | s] | l]; simpl; try discriminate.
  - destruct s as [| c r]; [discriminate |]. intros _ [= <-]. by cbn.
  - intros Ht [= <-]. by destruct l.
Qed.

Lemma existsb_map_const {A B} (f : B → bool) (g : A → B) (b : bool)
    (l : list A) :
  (∀ x, f (g x) = b) → l ≠ [] → existsb f (map g l) = b.
Proof.
  intros Hb Hne. destruct b.
  - destruct l as [| x l]; [done |]. cbn [map existsb]. by rewrite Hb.
  - clear Hne. induction l as [| y l IH]; [done |]. cbn [map existsb].
    by rewrite Hb.
Qed.

(** The [eq] entries, when the loop over the equipment does not raise. *)
Lemma existsb_equipment (f : string → bool) e (b : bool) :
  (∀ x, f ("eq=" ++ x) = b) →
  equipment_iterable e = true →
  existsb f (equipment_entries e) = obj_truthy e && b.
Proof.
  intros Hb. unfold equipment_iterable, equipment_entries, equipment_params.
  destruct (obj_truthy e) eqn:Ht; [| done]. cbn [negb orb andb].
  intros [yields Hy]%bool_decide_eq_true. rewrite Hy. cbn.
  pose proof (iterate_truthy e yields Ht Hy) as Hne.
  apply existsb_map_const; [| done]. intros x. apply Hb.
Qed.

Lemma prefix_nil s : String.prefix "" s = true.
Proof. by destruct s. Qed.

(** An entry carries its own name. *)
Lemma prefix_key key x : String.prefix (key ++ "=") (key ++ "=" ++ x) = true.
Proof.
  induction key as [| a key IH].
  - change (String.prefix "" x = true). apply prefix_nil.
  - change (match ascii_dec a a with
            | left _ => String.prefix (key ++ "=") (key ++ "=" ++ x)
            | right _ => false
            end = true).
    by destruct (ascii_dec a a).
Qed.

(** Decides every test of a parameter name against an entry whose name is
    known: the entry's own name by [prefix_key], another name by
    computation up to the first character that differs. *)
Ltac decide_prefix :=
  rewrite ?prefix_key;
  repeat match goal with
    | |- context [String.prefix ?a ?b] =>
        change (String.prefix a b) with false
    end.

Lemma range_param_entries key r b :
  range_param key r b =
    if is_dict_or_absent r then Some (range_entries key r b) else None.
Proof. by destruct r. Qed.

Lemma country_codes_entries c :
  country_codes c =
    if countries_iterable c then Some (codes_entries c) else None.
Proof.
  unfold countries_iterable, codes_entries, country_codes.
  by destruct (iterate (default (Container [PStr "AT"; PStr "DE"]) c)).
Qed.

Lemma equipment_params_entries e :
  equipment_params e =
    if equipment_iterable e then Some (equipment_entries e) else None.
Proof.
  unfold equipment_iterable, equipment_entries, equipment_params.
  destruct (obj_truthy e); [| done]. by destruct (iterate e).
Qed.

(** The list of parameters in closed form. *)
Lemma query_params_entries p :
  query_params p = if buildable p then Some (query_entries p) else None.
Proof.
  unfold query_params, buildable.
  rewrite country_codes_entries, equipment_params_entries, !range_param_entries.
  destruct (countries_iterable (countries p)); [| done].
  destruct (is_dict_or_absent (year_range p)); [| done].
  destruct (is_dict_or_absent (price_range p)); [| done].
  destruct (is_dict_or_absent (seats p)); [| done].
  destruct (is_dict_or_absent (doors p)); [| done].
  destruct (equipment_iterable (equipment p)); done.
Qed.

Lemma buildable_equipment p :
  buildable p = true → equipment_iterable (equipment p) = true.
Proof. unfold buildable. by intros [_ H]%andb_true_iff. Qed.

Lemma existsb_range_entries_same key r b :
  existsb (String.prefix (key ++ "=")) (range_entries key r b) = range_truthy r b.
Proof.
  unfold range_entries, range_truthy. destruct (range_get r b) as [v |]; [| done].
  rewrite existsb_opt_param, prefix_key. apply andb_true_r.
Qed.

Lemma existsb_range_entries_other (f : string → bool) key r b :
  (∀ x, f (key ++ "=" ++ x) = false) →
  existsb f (range_entries key r b) = false.
Proof.
  intros Hf. unfold range_entries. destruct (range_get r b) as [v |]; [| done].
  rewrite existsb_opt_param, Hf. apply andb_false_r.
Qed.

(** Evaluates [has_param] on [query_entries], given that the loop over
    the equipment does not raise. *)
Ltac eval_entries Hit :=
  unfold has_param, query_entries;
  repeat progress (rewrite ?existsb_app; cbn [existsb]);
  rewrite ?existsb_range_entries_same;
  rewrite ?existsb_range_entries_other by (intros; reflexivity);
  rewrite ?existsb_opt_param;
  rewrite ?(existsb_equipment (String.prefix ("eq" ++ "=")) _ true
              (λ x, prefix_key "eq" x) Hit);
  rewrite ?(existsb_equipment _ _ false (λ x, eq_refl) Hit);
  decide_prefix;
  rewrite ?andb_false_r, ?andb_true_r, ?orb_false_r, ?orb_false_l;
  try reflexivity.

(** C9 as stated fails: a minimum price of 0, present and not null, puts
    no [pricefrom] in the URL, while the maximum of 5000 next to it is
    emitted. *)
Lemma C9_counterexample :
  range_get (price_range search_from_zero) Min = Some (PInt 0)
  ∧ non_null (PInt 0) = true
  ∧ build_search_url search_from_zero =
      Some ("https://www.autoscout24.de/lst/volkswagen/t5-(alle)"
            ++ "?atype=C&cy=A%2CD&damaged_listing=exclude&desc=0"
            ++ "&ocs_listing=include&powertype=kw&priceto=5000"
            ++ "&sort=standard&source=homepage_search-mask&ustate=N%2CU")
  ∧ ∃ qp, query_params search_from_zero = Some qp
          ∧ has_param "pricefrom" qp = false
          ∧ has_param "priceto" qp = true.
Proof.
  split; [reflexivity | split; [reflexivity | split; [by vm_compute |]]].
  eexists. split; [by vm_compute | split; by vm_compute].
Qed.

(** C9, amended: whenever a URL is built, it is the base URL followed by
    the query parameters, and each optional filter's parameter is among
    them if and only if the filter's value is true in Python's sense:
    present, not null, and neither 0 nor empty.  A bound of 0 is therefore
    left out like an absent one. *)
Theorem C9_filter_emitted_iff_truthy (p : SearchParams) (url : string) :
  build_search_url p = Some url →
  ∃ qp,
    query_params p = Some qp
    ∧ url = base_url p ++ "?" ++ Py.join "&" qp
    ∧ has_param "pricefrom" qp = range_truthy (price_range p) Min
    ∧ has_param "priceto" qp = range_truthy (price_range p) Max
    ∧ has_param "fregfrom" qp = range_truthy (year_range p) Min
    ∧ has_param "fregto" qp = range_truthy (year_range p) Max
    ∧ has_param "kmto" qp = truthy (max_kilometers p)
    ∧ has_param "seatsfrom" qp = range_truthy (seats p) Min
    ∧ has_param "seatsto" qp = range_truthy (seats p) Max
    ∧ has_param "doorfrom" qp = range_truthy (doors p) Min
    ∧ has_param "doorto" qp = range_truthy (doors p) Max
    ∧ has_param "body" qp = truthy (body_type p)
    ∧ has_param "fuel" qp = truthy (fuel_type p)
    ∧ has_param "gear" qp = truthy (transmission p)
    ∧ has_param "eq" qp = obj_truthy (equipment p)
    ∧ has_param "color" qp = truthy (color p)
    ∧ has_param "zip" qp = truthy (zip p)
    ∧ has_param "zipr" qp = truthy (zipr p).
Proof.
  unfold build_search_url. rewrite query_params_entries.
  destruct (buildable p) eqn:Hb; [| discriminate].
  cbn [mbind option_bind]. intros [= <-].
  pose proof (buildable_equipment p Hb) as Hit.
  exists (query_entries p). split; [done | split; [done |]].
  repeat split; eval_entries Hit.
Qed.

Lemma C9_filter_emitted_witness :
  ∃ qp,
    query_params search_from_zero = Some qp
    ∧ has_param "pricefrom" qp = false
    ∧ has_param "priceto" qp = true
    ∧ has_param "kmto" qp = false.
Proof.
  destruct (C9_filter_emitted_iff_truthy search_from_zero
              ("https://www.autoscout24.de/lst/volkswagen/t5-(alle)"
               ++ "?atype=C&cy=A%2CD&damaged_listing=exclude&desc=0"
               ++ "&ocs_listing=include&powertype=kw&priceto=5000"
               ++ "&sort=standard&source=homepage_search-mask&ustate=N%2CU"))
    as (qp & Hqp & _ & Hfrom & Hto & _ & _ & Hkm & _).
  - by vm_compute.
  - exists qp. split; [exact Hqp |]. split; [exact Hfrom |].
    split; [exact Hto | exact Hkm].
Defined.

End QueryBuilderClaims.

(** ** The page partitioner *)

Section PartitionerClaims.
Import Scraper Partitioner Examples.

Local Open Scope string_scope.

Lemma take_when_longer {A} (n : Z) (l : list A) :
  (0 < n)%Z →
  (if (n <? Z.of_nat (length l))%Z then take (Z.to_nat n) l else l)
  = take (Z.to_nat n) l.
Proof.
  intros Hn. destruct (Z.ltb_spec n (Z.of_nat (length l))); [done |].
  symmetry. apply take_ge. lia.
Qed.

(** C2 as stated fails: a page whose main results region holds one
    article keeps it when no header is found, and returns nothing when the
    header reports 0. *)
Lemma C2_counterexample :
  reported_total (page_with_header (Some "0 Angebote")) = Some 0%Z
  ∧ classified (page_with_header (Some "0 Angebote")) = [plain_article "abc-1"]
  ∧ select_listings (page_with_header (Some "0 Angebote")) = []
  ∧ select_listings (page_with_header None) = [plain_article "abc-1"].
Proof. repeat split; by vm_compute. Qed.

(** C2, amended: the reported total decides what is kept in three ways,
    and only in these.  A reported total of 0 makes the search return no
    fragment at all; a positive total makes every found fragment primary
    when the classification finds none, and cuts the primary fragments
    down to the first [total]; with no usable total the primary fragments
    are those of the selectors and the classification. *)
Theorem C2_reported_total_gates_and_bounds (page : Page) :
  select_listings page = kept_by_total page.
Proof.
  unfold select_listings, kept_by_total.
  destruct (listing_elements page) as [| a l] eqn:El.
  - case_bool_decide; [done |]. by simpl.
  - cbn [Storage.truthy_list negb].
    destruct (reported_total page) as [n |].
    + change (default 0%Z (Some n)) with n.
      case_bool_decide as Hn.
      * inversion Hn. by subst.
      * assert (n ≠ 0)%Z as Hn0 by congruence.
        destruct (Z.eqb_spec n 0); [done |].
        destruct (Z.ltb_spec 0 n) as [Hpos | Hneg].
        -- rewrite andb_true_r. cbn [andb].
           destruct (classified page) as [| m ms]; cbn [Storage.truthy_list negb];
             by rewrite take_when_longer.
        -- by rewrite andb_false_r.
    + change (default 0%Z None) with 0%Z.
      case_bool_decide; [done |]. by rewrite andb_false_r.
Qed.

End PartitionerClaims.

(** ** Integers read from text *)

Section PyFacts.
Import Py.

Lemma digit_val_nonneg c : is_digit c = true → 0 ≤ digit_val c.
Proof.
  unfold is_digit, digit_val. intros H.
  apply andb_true_iff in H as [H _]. apply Nat.leb_le in H. lia.
Qed.

Lemma int_body_nonneg s : ∀ after_digit acc z,
  0 ≤ acc → int_body after_digit acc s = Some z → 0 ≤ z.
Proof.
  induction s as [| c r IH]; intros b acc z Hacc; simpl.
  - destruct b; [| discriminate]. by intros [= <-].
  - destruct (is_digit c) eqn:Hd.
    + apply IH. pose proof (digit_val_nonneg c Hd). lia.
    + destruct (Ascii.eqb c "_"%char && b); [| discriminate]. by apply IH.
Qed.

Lemma digit_not_int_space c : is_digit c = true → is_int_space c = false.
Proof.
  unfold is_digit, is_int_space. intros H.
  apply andb_true_iff in H as [H1 H2].
  apply Nat.leb_le in H1. apply Nat.leb_le in H2.
  apply orb_false_iff. split.
  - apply andb_false_iff. right. apply Nat.leb_gt. lia.
  - apply Nat.eqb_neq. lia.
Qed.

Lemma rstrip_int_space_all_digits s :
  all_digits s = true → rstrip_int_space s = s.
Proof.
  induction s as [| c r IH]; simpl; [done |].
  intros [Hc Hr]%andb_true_iff. rewrite (IH Hr).
  destruct r; [| done]. by rewrite (digit_not_int_space c Hc).
Qed.

(** [int()] finds nothing to pass over around a run of digits. *)
Lemma strip_int_space_all_digits s :
  all_digits s = true → strip_int_space s = s.
Proof.
  intros H. unfold strip_int_space.
  assert (span_int_space s = 0%nat) as ->.
  { destruct s as [| c r]; [done |]. simpl in *.
    apply andb_true_iff in H as [Hc _]. by rewrite (digit_not_int_space c Hc). }
  by apply rstrip_int_space_all_digits.
Qed.

(** A run of digits is read as a number that is not negative. *)
Lemma int_of_str_digits_nonneg s z :
  all_digits s = true → int_of_str s = Some z → 0 ≤ z.
Proof.
  intros Hs. unfold int_of_str. rewrite (strip_int_space_all_digits s Hs).
  destruct s as [| c r]; [discriminate |].
  pose proof Hs as Hs'. simpl in Hs'. apply andb_true_iff in Hs' as [Hc _].
  assert (int_body false 0 (String c r) = Some z → 0 ≤ z) as Hbody
    by (apply int_body_nonneg; lia).
  destruct c as [[] [] [] [] [] [] [] []]; try discriminate Hc; exact Hbody.
Qed.

Lemma digits_only_all_digits s : all_digits (digits_only s) = true.
Proof.
  induction s as [| c r IH]; simpl; [done |].
  destruct (is_digit c) eqn:Hd; [| done]. simpl. by rewrite Hd.
Qed.

Lemma take_digits_all_digits n : ∀ s d rest,
  take_digits n s = Some (d, rest) → all_digits d = true.
Proof.
  induction n as [| n IH]; intros s d rest; simpl.
  - by intros [= <- _].
  - destruct s as [| c r]; [discriminate |].
    destruct (is_digit c) eqn:Hd; [| discriminate].
    destruct (take_digits n r) as [[d' rest'] |] eqn:E; simpl; [| discriminate].
    intros [= <- _]. simpl. rewrite Hd. by apply (IH _ _ _ E).
Qed.

Lemma month_year_here_digits sep s y :
  month_year_here sep s = Some y → all_digits y = true.
Proof.
  unfold month_year_here.
  destruct (take_digits 2 s) as [[d rest] |]; [| discriminate].
  cbn -[take_digits].
  destruct rest as [| c' rest']; [discriminate |].
  destruct (Ascii.eqb c' sep); [| discriminate].
  destruct (take_digits 4 rest') as [[d' rest''] |] eqn:E4; [| discriminate].
  cbn. intros [= <-]. by apply (take_digits_all_digits _ _ _ _ E4).
Qed.

Lemma search_month_year_digits sep s y :
  search_month_year sep s = Some y → all_digits y = true.
Proof.
  induction s as [| c r IH]; cbn [search_month_year].
  - destruct (month_year_here sep "") eqn:E; [| discriminate].
    intros [= ->]. by apply (month_year_here_digits _ _ _ E).
  - destruct (month_year_here sep (String c r)) as [y' |] eqn:E; [| exact IH].
    intros [= ->]. by apply (month_year_here_digits _ _ _ E).
Qed.

Lemma search_four_digits_digits s y :
  search_four_digits s = Some y → all_digits y = true.
Proof.
  induction s as [| c r IH].
  - simpl. discriminate.
  - cbn [search_four_digits].
    destruct (take_digits 4 (String c r)) as [[d rest] |] eqn:E; [| exact IH].
    intros [= ->]. by apply (take_digits_all_digits _ _ _ _ E).
Qed.

End PyFacts.

(** ** The field extractor *)

Section Extractor.
Import Models Scraper.

Local Open Scope string_scope.

(** A [data-] attribute is looked up in [data_attrs] as in [attrs]. *)
Lemma data_attrs_lookup element name :
  String.prefix "data-" name = true →
  data_attrs element !! name = attrs element !! name.
Proof.
  intros Hp. unfold data_attrs.
  destruct (attrs element !! name) as [v |] eqn:E.
  - by apply map_lookup_filter_Some.
  - apply map_lookup_filter_None. by left.
Qed.

Lemma inline_int_attr element name text v :
  String.prefix "data-" name = true →
  attrs element !! name = Some text →
  Py.int_of_str text = Some v →
  inline_int name element = v.
Proof.
  intros Hp Ha Hv. unfold inline_int.
  by rewrite (data_attrs_lookup _ _ Hp), Ha, Hv.
Qed.

(** FALLBACK 1 never writes the price. *)
Lemma fallback_details_price element k y p k' y' p' :
  fallback_details element (k, y, p) = Some (k', y', p') → p' = p.
Proof.
  unfold fallback_details.
  destruct (unresolved k y p); [| by intros [= _ _ ->]].
  destruct (vehicle_details element) as [| | details];
    try by intros [= _ _ ->].
  destruct (details_loop (k, y) details) as [[k1 y1] |]; simpl;
    [by intros [= _ _ ->] | discriminate].
Qed.

(** FALLBACK 2 writes the price only while it is 0. *)
Lemma fallback_tracking_price element k y p k' y' p' :
  p ≠ 0 →
  fallback_tracking element (k, y, p) = Some (k', y', p') → p' = p.
Proof.
  intros Hp. unfold fallback_tracking.
  destruct (unresolved k y p); [| by intros [= _ _ ->]].
  destruct (tracking element) as [| | tracking_data];
    try by intros [= _ _ ->].
  destruct (Z.eqb_spec p 0) as [| _]; [done |].
  match goal with
  | |- (?my ≫= _) = _ → _ => destruct my as [y1 |]; [| discriminate]
  end.
  simpl.
  match goal with
  | |- (?mk ≫= _) = _ → _ => destruct mk as [k1 |]; [| discriminate]
  end.
  simpl. destruct (obj_get "price" tracking_data); simpl; by intros [= _ _ ->].
Qed.

(** FALLBACK 3 is skipped once the price is resolved. *)
Lemma fallback_price_resolved element p :
  p ≠ 0 → fallback_price element p = Some p.
Proof.
  intros Hp. unfold fallback_price. by destruct (Z.eqb_spec p 0).
Qed.

(** The price of the cascade is the inline one when that is not 0. *)
Lemma cascade_price element k y p :
  inline_int "data-price" element ≠ 0 →
  cascade element = Some (k, y, p) →
  p = inline_int "data-price" element.
Proof.
  intros Hp. unfold cascade.
  destruct (inline_year element) as [y0 |]; [| discriminate].
  cbn [mbind option_bind].
  destruct (fallback_details element
              (inline_int "data-mileage" element, y0,
               inline_int "data-price" element))
    as [[[k1 y1] p1] |] eqn:E1; [| discriminate].
  cbn [mbind option_bind].
  apply fallback_details_price in E1. subst p1.
  destruct (fallback_tracking element
              (k1, y1, inline_int "data-price" element))
    as [[[k2 y2] p2] |] eqn:E2; [| discriminate].
  cbn [mbind option_bind].
  apply fallback_tracking_price in E2; [| done]. subst p2.
  rewrite (fallback_price_resolved _ _ Hp).
  cbn [mbind option_bind]. by intros [= _ _ ->].
Qed.

(** What an extracted record holds. *)
Lemma extracted_fields element make model now1 now2 listing :
  extract_listing_details element make model now1 now2 = Extracted listing →
  cascade element = Some (kilometers listing, year listing, price listing)
  ∧ first_seen listing = now1
  ∧ last_seen listing = now2
  ∧ id listing = listing_id_of element
  ∧ id listing ≠ "".
Proof.
  unfold extract_listing_details.
  destruct (cascade element) as [[[k y] p] |]; [| discriminate].
  destruct (listing_id_of element) as [| c r] eqn:Eid; simpl; [discriminate |].
  by intros [= <-].
Qed.

End Extractor.

(** ** Signs of the extracted numbers *)

Section ExtractorSigns.
Import Models Scraper.

Lemma year_of_nonneg sep bare current text y :
  0 ≤ current → year_of sep bare current text = Some y → 0 ≤ y.
Proof.
  intros Hc. unfold year_of.
  destruct (Py.search_month_year sep text) as [m |] eqn:Em.
  - apply int_of_str_digits_nonneg. by apply (search_month_year_digits _ _ _ Em).
  - destruct bare; [| by intros [= <-]].
    destruct (Py.search_four_digits text) as [m |] eqn:Ef; [| by intros [= <-]].
    apply int_of_str_digits_nonneg. by apply (search_four_digits_digits _ _ Ef).
Qed.

Lemma inline_year_nonneg element y : inline_year element = Some y → 0 ≤ y.
Proof.
  unfold inline_year.
  destruct (data_attrs element !! "data-first-registration"%string);
    [| by intros [= <-]].
  by apply year_of_nonneg.
Qed.

(** One entry of [vehicleDetails] keeps each of the two fields
    non-negative. *)
Lemma detail_step_nonneg k y detail k' y' :
  detail_step (k, y) detail = Some (k', y') →
  (0 ≤ k → 0 ≤ k') ∧ (0 ≤ y → 0 ≤ y').
Proof.
  unfold detail_step.
  destruct (py_in "data" detail) as [[] |]; cbn [mbind option_bind negb];
    [| by intros [= <- <-] | discriminate].
  destruct (py_in "iconName" detail) as [[] |]; cbn [mbind option_bind negb];
    [| by intros [= <- <-] | discriminate].
  destruct detail as [| | | | | | fields]; try discriminate.
  destruct (obj_get "iconName" fields) as [icon |]; [| discriminate].
  cbn [mbind option_bind].
  destruct (obj_get "data" fields) as [data |]; [| discriminate].
  cbn [mbind option_bind].
  destruct (py_in "mileage" icon) as [is_mileage |]; [| discriminate].
  cbn [mbind option_bind].
  destruct (is_mileage && (k =? 0)).
  - destruct (as_str data) as [text |]; [| discriminate].
    cbn [mbind option_bind].
    destruct (Notification.truthy_str (Py.digits_only text));
      [| by intros [= <- <-]].
    destruct (Py.int_of_str (Py.digits_only text)) as [z |] eqn:Ez;
      [| by intros [= <- <-]].
    intros [= <- <-]. split; [| done]. intros _.
    apply (int_of_str_digits_nonneg _ _ (digits_only_all_digits text) Ez).
  - destruct (py_in "calendar" icon) as [is_calendar |]; [| discriminate].
    cbn [mbind option_bind].
    destruct (is_calendar && (y =? 0)); [| by intros [= <- <-]].
    destruct (as_str data) as [text |]; [| discriminate].
    cbn [mbind option_bind].
    destruct (year_of "/" true y text) as [y1 |] eqn:Ey; [| discriminate].
    cbn [mbind option_bind]. intros [= <- <-]. split; [done |].
    intros Hy. by apply (year_of_nonneg _ _ _ _ _ Hy Ey).
Qed.

Lemma details_loop_nonneg details : ∀ k y k' y',
  details_loop (k, y) details = Some (k', y') →
  (0 ≤ k → 0 ≤ k') ∧ (0 ≤ y → 0 ≤ y').
Proof.
  induction details as [| d rest IH]; intros k y k' y'; cbn [details_loop].
  - by intros [= <- <-].
  - destruct (detail_step (k, y) d) as [[k1 y1] |] eqn:E1; [| discriminate].
    cbn [mbind option_bind]. intros E2.
    apply detail_step_nonneg in E1. apply IH in E2. tauto.
Qed.

Lemma fallback_details_nonneg element k y p k' y' p' :
  fallback_details element (k, y, p) = Some (k', y', p') →
  (0 ≤ k → 0 ≤ k') ∧ (0 ≤ y → 0 ≤ y') ∧ p' = p.
Proof.
  unfold fallback_details.
  destruct (unresolved k y p); [| by intros [= <- <- <-]].
  destruct (vehicle_details element) as [| | details];
    try by intros [= <- <- <-].
  destruct (details_loop (k, y) details) as [[k1 y1] |] eqn:E; [| discriminate].
  cbn [mbind option_bind]. intros [= <- <- <-].
  apply details_loop_nonneg in E. tauto.
Qed.

Lemma guarded_int_nonneg current v z :
  nonneg_json v = true → 0 ≤ current → guarded_int current v = Some z → 0 ≤ z.
Proof.
  unfold nonneg_json, guarded_int. intros Hv Hc.
  destruct (int_of_json v) as [n | |]; [| by intros [= <-] | discriminate].
  intros [= <-]. by apply Z.leb_le.
Qed.

Lemma fallback_tracking_nonneg element k y p k' y' p' :
  fallback_tracking element (k, y, p) = Some (k', y', p') →
  (0 ≤ y → 0 ≤ y')
  ∧ (nonneg_field "mileage" (tracking element) = true → 0 ≤ k → 0 ≤ k')
  ∧ (nonneg_field "price" (tracking element) = true → 0 ≤ p → 0 ≤ p').
Proof.
  unfold fallback_tracking, nonneg_field.
  destruct (unresolved k y p); [| by intros [= <- <- <-]].
  destruct (tracking element) as [| | tracking_data];
    try by intros [= <- <- <-].
  match goal with
  | |- (?my ≫= _) = _ → _ => destruct my as [y1 |] eqn:Ey; [| discriminate]
  end.
  cbn [mbind option_bind].
  match goal with
  | |- (?mk ≫= _) = _ → _ => destruct mk as [k1 |] eqn:Ek; [| discriminate]
  end.
  cbn [mbind option_bind].
  match goal with
  | |- (?mp ≫= _) = _ → _ => destruct mp as [p1 |] eqn:Ep; [| discriminate]
  end.
  cbn [mbind option_bind]. intros [= <- <- <-].
  split; [| split].
  - intros Hy. destruct (obj_get "firstRegistration" tracking_data) as [reg |];
      [| by injection Ey as <-].
    destruct (y =? 0); [| by injection Ey as <-].
    destruct (as_str reg) as [text |]; [| discriminate Ey].
    cbn [mbind option_bind] in Ey. by apply (year_of_nonneg _ _ _ _ _ Hy Ey).
  - intros Hv Hk. destruct (obj_get "mileage" tracking_data) as [v |];
      [| by injection Ek as <-].
    destruct (k =? 0); [| by injection Ek as <-].
    by apply (guarded_int_nonneg _ _ _ Hv Hk Ek).
  - intros Hv Hp. destruct (obj_get "price" tracking_data) as [v |];
      [| by injection Ep as <-].
    destruct (p =? 0); [| by injection Ep as <-].
    by apply (guarded_int_nonneg _ _ _ Hv Hp Ep).
Qed.

Lemma fallback_price_nonneg element p p' :
  0 ≤ p → fallback_price element p = Some p' → 0 ≤ p'.
Proof.
  intros Hp. unfold fallback_price.
  destruct (p =? 0); [| by intros [= <-]].
  destruct (price_object element) as [| | price_data]; try by intros [= <-].
  destruct (obj_get "priceFormatted" price_data) as [v |]; [| by intros [= <-]].
  destruct (as_str v) as [text |]; [| discriminate].
  cbn [mbind option_bind].
  destruct (Notification.truthy_str (Py.digits_only text)); [| by intros [= <-]].
  destruct (Py.int_of_str (Py.digits_only text)) as [z |] eqn:Ez;
    [| by intros [= <-]].
  intros [= <-].
  apply (int_of_str_digits_nonneg _ _ (digits_only_all_digits text) Ez).
Qed.

(** The cascade: the year is never negative; the price and the mileage
    are not, each under the proviso of its own sources. *)
Lemma cascade_signs element k y p :
  cascade element = Some (k, y, p) →
  0 ≤ y
  ∧ (0 ≤ inline_int "data-price" element →
     nonneg_field "price" (tracking element) = true → 0 ≤ p)
  ∧ (0 ≤ inline_int "data-mileage" element →
     nonneg_field "mileage" (tracking element) = true → 0 ≤ k).
Proof.
  unfold cascade.
  destruct (inline_year element) as [y0 |] eqn:Ey; [| discriminate].
  cbn [mbind option_bind].
  destruct (fallback_details element
              (inline_int "data-mileage" element, y0,
               inline_int "data-price" element))
    as [[[k1 y1] p1] |] eqn:E1; [| discriminate].
  cbn [mbind option_bind].
  destruct (fallback_tracking element (k1, y1, p1))
    as [[[k2 y2] p2] |] eqn:E2; [| discriminate].
  cbn [mbind option_bind].
  destruct (fallback_price element p2) as [p3 |] eqn:E3; [| discriminate].
  cbn [mbind option_bind]. intros [= <- <- <-].
  apply inline_year_nonneg in Ey.
  apply fallback_details_nonneg in E1 as (Hk1 & Hy1 & ->).
  apply fallback_tracking_nonneg in E2 as (Hy2 & Hk2 & Hp2).
  split; [auto |]. split.
  - intros Hp0 Hprice. apply (fallback_price_nonneg _ _ _ (Hp2 Hprice Hp0) E3).
  - intros Hk0 Hmileage. auto.
Qed.

(** A fragment with an identifier gives a record unless the cascade
    raises. *)
Lemma extract_with_identifier element make model now1 now2 :
  listing_id_of element ≠ ""%string →
  match cascade element with
  | None => extract_listing_details element make model now1 now2 = Raised
  | Some (k, y, p) =>
      ∃ listing,
        extract_listing_details element make model now1 now2
          = Extracted listing
        ∧ id listing = listing_id_of element
        ∧ kilometers listing = k ∧ year listing = y ∧ price listing = p
        ∧ first_seen listing = now1 ∧ last_seen listing = now2
  end.
Proof.
  intros Hid. unfold extract_listing_details.
  destruct (cascade element) as [[[k y] p] |]; [| done].
  destruct (listing_id_of element) as [| c r]; [done |]. cbn.
  eexists. split; [reflexivity |]. by cbn.
Qed.

End ExtractorSigns.

(** ** Precedence and signs in the extracted record *)

Section ExtractorClaims.
Import Models Scraper Examples.

(** C6: when the inline [data-price] attribute holds a number that
    [int()] reads and that is not 0, every record extracted from the
    fragment has that number as its price, whatever the tracking object
    and the price object say; both are read for a price only while the
    price is 0: with this price the tracking step returns it unchanged and
    the price-object step is skipped. *)
Theorem C6_inline_price_wins
    (element : Element) (make model : string) (now1 now2 : Z)
    (text : string) (v : Z) (listing : CarListing) :
  attrs element !! "data-price"%string = Some text →
  Py.int_of_str text = Some v →
  v ≠ 0 →
  extract_listing_details element make model now1 now2 = Extracted listing →
  price listing = v
  ∧ fallback_price element v = Some v
  ∧ ∀ k y k' y' p',
      fallback_tracking element (k, y, v) = Some (k', y', p') → p' = v.
Proof.
  intros Ha Hv Hne Hex.
  assert (inline_int "data-price" element = v) as Hin
    by (by apply (inline_int_attr _ _ text)).
  split; [| split].
  - apply extracted_fields in Hex as (Hc & _).
    apply cascade_price in Hc; [| by rewrite Hin]. by rewrite Hc.
  - by apply fallback_price_resolved.
  - intros k y k' y' p'. by apply fallback_tracking_price.
Qed.

Lemma C6_inline_price_witness :
  obj_get "price" [("price", JStr "14000"); ("mileage", JStr "120000")]
    = Some (JStr "14000")
  ∧ ∃ listing,
      extract_listing_details article_three_prices "Volkswagen" "T5" 10 11
        = Extracted listing
      ∧ price listing = 15990.
Proof.
  split; [reflexivity |].
  eexists. split; [by vm_compute |].
  refine (proj1 (C6_inline_price_wins article_three_prices "Volkswagen" "T5"
                   10 11 "15990" 15990 _ _ _ _ _)).
  - by vm_compute.
  - by vm_compute.
  - discriminate.
  - by vm_compute.
Defined.

(** C7 as stated fails twice over.  A fragment with an id whose inline
    price attribute is -500 gives a record with the price -500.  And a
    fragment with an id gives no record at all when its [vehicleDetails]
    array has a mileage entry whose data is null: the substitution on it
    raises a [TypeError] that only the outermost handler catches. *)
Lemma C7_counterexample :
  (∃ listing,
     extract_listing_details article_negative_price "Volkswagen" "T5" 10 11
       = Extracted listing
     ∧ id listing = "abc-3"%string
     ∧ price listing = -500
     ∧ price listing < 0)
  ∧ listing_id_of article_null_detail = "abc-5"%string
  ∧ extract_listing_details article_null_detail "Volkswagen" "T5" 10 11
    = Raised.
Proof.
  split; [| split; by vm_compute].
  eexists. split; [by vm_compute |]. repeat split.
Qed.

(** C7, amended: extraction has no check of the sign, and an error that
    no handler of a field catches ends it without a record.  For every
    fragment with an identifier, either such an error is raised and no
    record is returned, or a record with that identifier is returned, and
    then: its year is not negative; its price is not negative when
    neither the inline price attribute nor the price of the tracking
    object holds a negative number; its kilometers are not negative when
    neither the inline mileage attribute nor the mileage of the tracking
    object does; and [first_seen] is not later than [last_seen] when the
    clock does not go back between the two readings. *)
Theorem C7_extracted_numbers_nonnegative
    (element : Element) (make model : string) (now1 now2 : Z) :
  listing_id_of element ≠ ""%string →
  (cascade element = None
   ∧ extract_listing_details element make model now1 now2 = Raised)
  ∨ ∃ listing,
      extract_listing_details element make model now1 now2 = Extracted listing
      ∧ id listing = listing_id_of element
      ∧ 0 ≤ year listing
      ∧ (0 ≤ inline_int "data-price" element →
         nonneg_field "price" (tracking element) = true →
         0 ≤ price listing)
      ∧ (0 ≤ inline_int "data-mileage" element →
         nonneg_field "mileage" (tracking element) = true →
         0 ≤ kilometers listing)
      ∧ (now1 ≤ now2 → first_seen listing ≤ last_seen listing).
Proof.
  intros Hid.
  pose proof (extract_with_identifier element make model now1 now2 Hid) as Hex.
  destruct (cascade element) as [[[k y] p] |] eqn:Hc; [| by left].
  right. destruct Hex as (listing & Hex & Hi & Hk' & Hy' & Hp' & Hf & Hl).
  exists listing. split; [done |]. split; [done |].
  apply cascade_signs in Hc as (Hy & Hp & Hk).
  rewrite Hk', Hy', Hp', Hf, Hl. auto.
Qed.

Lemma C7_extracted_numbers_witness :
  ∃ listing,
    extract_listing_details article_three_prices "Volkswagen" "T5" 10 11
      = Extracted listing
    ∧ id listing = "abc-2"%string
    ∧ 0 ≤ price listing
    ∧ 0 ≤ year listing
    ∧ 0 ≤ kilometers listing
    ∧ first_seen listing ≤ last_seen listing.
Proof.
  destruct (C7_extracted_numbers_nonnegative article_three_prices
              "Volkswagen" "T5" 10 11)
    as [[Hnone _] | (listing & Hex & Hi & Hy & Hp & Hk & Hseen)].
  - by vm_compute.
  - by vm_compute in Hnone.
  - exists listing. split; [exact Hex |].
    split; [by rewrite Hi; vm_compute |].
    split; [apply Hp; by vm_compute |].
    split; [exact Hy |].
    split; [apply Hk; by vm_compute | apply Hseen; lia].
Defined.

End ExtractorClaims.

(** ** More on the store *)

Section StoreExtras.
Import Models Storage Main Examples.

Lemma keep_in_idem ids (t : gmap string CarListing) :
  keep_in ids (keep_in ids t) = keep_in ids t.
Proof.
  apply map_eq. intros k. apply option_eq. intros r.
  rewrite !keep_in_lookup. tauto.
Qed.

Lemma not_in_keep_in ids (t : gmap string CarListing) :
  not_in ids (keep_in ids t) = ∅.
Proof.
  apply map_empty. intros k. apply eq_None_not_Some. intros [r Hr].
  apply not_in_lookup in Hr as [Hr Hn]. apply keep_in_lookup in Hr. tauto.
Qed.

(** X2: a second removal pass with the same ids finds nothing to remove. *)
Theorem remove_old_listings_idempotent (current_ids : list string) (s : db_state) :
  let s1 := (remove_old_listings current_ids s).2 in
  (remove_old_listings current_ids s1).1 = 0%nat
  ∧ rows (remove_old_listings current_ids s1).2 = rows s1.
Proof.
  destruct current_ids as [| i ids]; [done |].
  cbn zeta. rewrite !remove_old_listings_nonempty by discriminate.
  cbn [fst snd rows].
  rewrite not_in_keep_in, keep_in_idem. split; [apply map_size_empty | done].
Qed.

(** X3: when every stored id is among the current ones, the pass removes
    nothing. *)
Theorem remove_old_listings_all_seen (current_ids : list string) (s : db_state) :
  (∀ k, k ∈ dom (rows s) → k ∈ current_ids) →
  (remove_old_listings current_ids s).1 = 0%nat
  ∧ rows (remove_old_listings current_ids s).2 = rows s.
Proof.
  intros Hall. destruct current_ids as [| i ids]; [done |].
  rewrite remove_old_listings_nonempty by discriminate. cbn [fst snd rows].
  assert (keep_in (i :: ids) (rows s) = rows s) as Hkeep.
  { apply map_eq. intros k. apply option_eq. intros r.
    rewrite keep_in_lookup. split; [tauto |]. intros Hr. split; [done |].
    apply Hall, elem_of_dom. eauto. }
  split; [| done].
  pose proof (keep_in_not_in_size (i :: ids) (rows s)) as Hsz.
  rewrite Hkeep in Hsz. lia.
Qed.

Lemma remove_old_listings_all_seen_witness :
  (remove_old_listings ["C"; "B"; "A"; "Z"]%string store_abc).1 = 0%nat
  ∧ rows (remove_old_listings ["C"; "B"; "A"; "Z"]%string store_abc).2
    = rows store_abc.
Proof.
  apply (remove_old_listings_all_seen ["C"; "B"; "A"; "Z"]%string store_abc).
  intros k Hk. apply elem_of_dom in Hk as [r Hr].
  unfold store_abc in Hr. cbn [rows] in Hr.
  repeat (apply lookup_insert_Some in Hr as [[<- _] | [_ Hr]];
          [set_solver |]).
  by rewrite lookup_empty in Hr.
Defined.

End StoreExtras.

(** ** More on the reconciliation loop *)

Section CycleExtras.
Import Models Storage Main Examples.

(** The row of [k] after one processed listing. *)
Lemma process_listing_lookup listing now c s k :
  table_ok (rows s) →
  table_ok (rows (process_listing listing now c s).2)
  ∧ rows (process_listing listing now c s).2 !! k =
      if bool_decide (id listing = k)
      then Some (match rows s !! k with
                 | Some existing => set_last_seen now existing
                 | None => listing
                 end)
      else rows s !! k.
Proof.
  intros Hok.
  destruct (rows s !! id listing) as [existing |] eqn:Hex.
  - rewrite (process_listing_known _ _ _ _ _ Hex). cbn [snd rows].
    pose proof (Hok _ _ Hex) as Hid. split.
    + change (id existing) with (id (set_last_seen now existing)).
      by apply table_ok_insert.
    + rewrite Hid. case_bool_decide as Hd.
      * subst k. by rewrite lookup_insert_eq, Hex.
      * by rewrite lookup_insert_ne.
  - rewrite (process_listing_unknown _ _ _ _ Hex). cbn [snd rows].
    split; [by apply table_ok_insert |].
    case_bool_decide as Hd.
    + subst k. by rewrite lookup_insert_eq, Hex.
    + by rewrite lookup_insert_ne.
Qed.

Lemma process_all_lookup (observed : list (CarListing * Z)) : ∀ c s k,
  table_ok (rows s) →
  table_ok (rows (process_all observed c s).2)
  ∧ rows (process_all observed c s).2 !! k = reconcile k (rows s !! k) observed.
Proof.
  induction observed as [| [listing now] rest IH]; intros c s k Hok.
  - done.
  - cbn [process_all reconcile]. unfold mbind, db_bind.
    destruct (process_listing_lookup listing now c s k Hok) as [Hok1 Hk1].
    destruct (process_listing listing now c s) as [c1 s1].
    cbn [snd] in *.
    destruct (IH c1 s1 k Hok1) as [Hok2 Hk2].
    split; [done |]. rewrite Hk2, Hk1. by case_bool_decide.
Qed.






End CycleExtras.

(** ** Notifications and stored ids over cycles *)

Section NotificationExtras.
Import Models Storage Main Examples.











(** The statements a cycle sends. *)
Lemma process_all_executed observed : ∀ c s,
  ∃ issued, executed (process_all observed c s).2 = executed s ++ issued
            ∧ DeleteAll ∉ issued.
Proof.
  induction observed as [| [listing now] rest IH]; intros c s.
  - exists []. cbn. rewrite app_nil_r. split; [done | apply not_elem_of_nil].
  - cbn [process_all]. unfold mbind, db_bind.
    assert (∃ q, executed (process_listing listing now c s).2
                 = executed s ++ [SelectById (id listing); InsertOrReplace q])
      as [q Hq].
    { destruct (rows s !! id listing) as [existing |] eqn:Hex.
      - rewrite (process_listing_known _ _ _ _ _ Hex). by eexists.
      - rewrite (process_listing_unknown _ _ _ _ Hex). by eexists. }
    destruct (process_listing listing now c s) as [c1 s1]. cbn [snd] in Hq.
    destruct (IH c1 s1) as (issued & Hi & Hn).
    exists ([SelectById (id listing); InsertOrReplace q] ++ issued).
    rewrite Hi, Hq, <- app_assoc. split; [done |].
    intros [H | H]%elem_of_app; [| done].
    repeat (apply elem_of_cons in H as [H | H]; [discriminate |]).
    by apply elem_of_nil in H.
Qed.

Lemma run_cycle_invariants observed s :
  table_ok (rows s) → DeleteAll ∉ executed s →
  table_ok (rows (run_cycle observed s).2)
  ∧ DeleteAll ∉ executed (run_cycle observed s).2.
Proof.
  intros Hok Hlog. unfold run_cycle, mbind, db_bind.
  pose proof (process_all_lookup observed start_cycle s ""%string Hok) as [Hok1 _].
  destruct (process_all_executed observed start_cycle s) as (issued & Hi & Hn).
  destruct (process_all observed start_cycle s) as [c1 s1]. cbn [snd] in *.
  destruct (all_current_ids c1) as [| i ids] eqn:Eids.
  - cbn. split; [done |]. rewrite Hi. intros [H | H]%elem_of_app; tauto.
  - rewrite remove_old_listings_nonempty by discriminate.
    cbn [snd rows executed mret db_ret]. split; [by apply table_ok_keep_in |].
    rewrite Hi. intros [[H | H]%elem_of_app | H]%elem_of_app; [tauto | tauto |].
    repeat (apply elem_of_cons in H as [H | H]; [discriminate |]).
    by apply elem_of_nil in H.
Qed.

(** X9: whatever the cycles observe, a database that starts empty keeps every
    row under its own id and is never sent the unguarded delete. *)
Theorem polling_loop_invariants (cycles : list (list (CarListing * Z))) :
  table_ok (rows (run_cycles cycles (mkDb ∅ [])))
  ∧ DeleteAll ∉ executed (run_cycles cycles (mkDb ∅ [])).
Proof.
  assert (∀ s, table_ok (rows s) → DeleteAll ∉ executed s →
               table_ok (rows (run_cycles cycles s))
               ∧ DeleteAll ∉ executed (run_cycles cycles s)) as Hgen.
  { induction cycles as [| observed rest IH]; intros s Hok Hlog; [done |].
    cbn [run_cycles]. destruct (run_cycle_invariants observed s Hok Hlog).
    by apply IH. }
  apply Hgen; [apply table_ok_empty | apply not_elem_of_nil].
Qed.

End NotificationExtras.

(** ** More on the query builder *)

Section QueryBuilderExtras.
Import QueryBuilder Examples.

Local Open Scope string_scope.







Ltac decide_key_prefix :=
  rewrite ?prefix_key;
  repeat match goal with
    | |- context [String.prefix ?a ?b] =>
        change (String.prefix a b) with false
    end.

Ltac eval_params Hit :=
  unfold has_param, query_entries;
  repeat progress (rewrite ?existsb_app; cbn [existsb]);
  rewrite ?existsb_range_entries_same;
  rewrite ?existsb_range_entries_other by (intros; reflexivity);
  rewrite ?existsb_opt_param;
  rewrite ?(existsb_equipment (String.prefix ("eq" ++ "=")) _ true
              (λ x, prefix_key "eq" x) Hit);
  rewrite ?(existsb_equipment _ _ false (λ x, eq_refl) Hit);
  decide_key_prefix;
  rewrite ?andb_false_r, ?andb_true_r, ?orb_false_r, ?orb_false_l;
  try reflexivity.

Lemma sublist_fixed_params p : fixed_params `sublist_of` query_entries p.
Proof.
  unfold query_entries, fixed_params. cbn [app].
  apply sublist_skip, sublist_cons. do 2 apply sublist_skip.
  do 3 apply sublist_inserts_l. cbn [app]. do 2 apply sublist_skip.
  do 3 apply sublist_inserts_l. cbn [app]. do 3 apply sublist_skip.
  apply sublist_nil_l.
Qed.

(** X11: every URL that is built carries the eight fixed parameters, in their
    fixed order, and a [cy] parameter. *)
Theorem fixed_params_always_emitted (p : SearchParams) (url : string) :
  build_search_url p = Some url →
  ∃ qp, query_params p = Some qp
        ∧ url = base_url p ++ "?" ++ Py.join "&" qp
        ∧ fixed_params `sublist_of` qp
        ∧ has_param "cy" qp = true
        ∧ has_param "search_id" qp = truthy (search_id p).
Proof.
  unfold build_search_url. rewrite query_params_entries.
  destruct (buildable p) eqn:Hb; [| discriminate]. cbn. intros [= <-].
  pose proof (buildable_equipment p Hb) as Hit.
  exists (query_entries p). split; [done |]. split; [done |].
  split; [apply sublist_fixed_params |]. split; [| eval_params Hit].
  unfold has_param, query_entries. cbn [app existsb].
  change (String.prefix ("cy" ++ "=") ("cy=" ++ ?x))
    with (String.prefix ("cy" ++ "=") ("cy" ++ "=" ++ x)).
  by rewrite prefix_key, orb_true_r.
Qed.

Lemma fixed_params_witness :
  ∃ qp, query_params search_from_zero = Some qp
        ∧ fixed_params `sublist_of` qp
        ∧ has_param "cy" qp = true.
Proof.
  destruct (fixed_params_always_emitted search_from_zero
              ("https://www.autoscout24.de/lst/volkswagen/t5-(alle)"
               ++ "?atype=C&cy=A%2CD&damaged_listing=exclude&desc=0"
               ++ "&ocs_listing=include&powertype=kw&priceto=5000"
               ++ "&sort=standard&source=homepage_search-mask&ustate=N%2CU"))
    as (qp & Hqp & _ & Hfixed & Hcy & _).
  - by vm_compute.
  - exists qp. split; [exact Hqp |]. split; [exact Hfixed | exact Hcy].
Defined.

Lemma country_code_known country c :
  c ∈ country_code country → c ∈ known_codes.
Proof.
  unfold country_code, known_codes.
  repeat (destruct (String.eqb country _);
          [intros ->%list_elem_of_singleton; set_solver |]).
  by intros ?%elem_of_nil.
Qed.

Lemma code_of_known country c : c ∈ code_of country → c ∈ known_codes.
Proof.
  destruct country as [| b | z | s]; cbn [code_of];
    try by intros ?%elem_of_nil.
  apply country_code_known.
Qed.

(** X12: whenever the countries can be iterated over, the [cy] parameter
    does not come out empty and holds known codes only: the codes of the
    values that are known country names, in the order given, and all
    eight codes when none of them is one.  When they cannot be iterated
    over, no code is produced. *)
Theorem country_codes_known (countries : option pyobj) :
  match iterate (default (Container [PStr "AT"; PStr "DE"]) countries) with
  | Some yields =>
      ∃ codes,
        country_codes countries = Some codes
        ∧ codes ≠ []
        ∧ (∀ c, c ∈ codes → c ∈ known_codes)
        ∧ (codes = concat (map code_of yields)
           ∨ concat (map code_of yields) = [] ∧ codes = known_codes)
  | None => country_codes countries = None
  end.
Proof.
  unfold country_codes.
  destruct (iterate (default (Container [PStr "AT"; PStr "DE"]) countries))
    as [yields |]; [| done].
  cbn [mbind option_bind].
  destruct (concat (map code_of yields)) as [| c0 cs] eqn:E.
  - eexists. split; [done |]. split; [discriminate |].
    split; [auto | by right].
  - eexists. split; [done |]. split; [discriminate |]. split; [| by left].
    intros c Hc. rewrite <- E in Hc.
    apply list_elem_of_In, in_concat in Hc as (l & Hl & Hc).
    apply in_map_iff in Hl as (country & <- & _).
    apply (code_of_known country). by apply list_elem_of_In.
Qed.

End QueryBuilderExtras.

(** ** From the configuration to the URL *)

Section MainToBuilder.
Import QueryBuilder Main Examples.

Local Open Scope string_scope.

Lemma pass_range_ok r :
  is_dict_or_absent (pass_range r) = negb (cfg_range_raises r).
Proof. by destruct r as [| | [| [k v] m] | []]. Qed.

Lemma pass_range_min r :
  range_truthy (pass_range r) Min = cfg_bound_truthy r "min".
Proof. by destruct r as [| | [| [k v] m] | []]. Qed.

Lemma pass_range_max r :
  range_truthy (pass_range r) Max = cfg_bound_truthy r "max".
Proof. by destruct r as [| | [| [k v] m] | []]. Qed.

Lemma pass_truthy_truthy v : truthy (pass_truthy v) = cfg_truthy v.
Proof.
  destruct v as [v |]; [| done]. cbn. by destruct (truthy v) eqn:E.
Qed.

Lemma pass_not_none_truthy v : truthy (pass_not_none v) = cfg_truthy v.
Proof. by destruct v. Qed.

Lemma pass_obj_truthy o : obj_truthy (pass_obj o) = cfg_obj_truthy o.
Proof.
  destruct o as [o |]; [| done]. cbn. by destruct (obj_truthy o) eqn:E.
Qed.

Lemma pass_obj_iterable o :
  equipment_iterable (pass_obj o)
  = equipment_iterable (default (Scalar PNone) o).
Proof.
  destruct o as [o |]; [| done].
  change (default (Scalar PNone) (Some o)) with o. cbn [pass_obj].
  destruct (obj_truthy o) eqn:E; [done |].
  unfold equipment_iterable. by rewrite E.
Qed.

Ltac decide_key_prefix' :=
  rewrite ?prefix_key;
  repeat match goal with
    | |- context [String.prefix ?a ?b] =>
        change (String.prefix a b) with false
    end.

Ltac eval_params' Hit :=
  unfold has_param, query_entries;
  repeat progress (rewrite ?existsb_app; cbn [existsb]);
  rewrite ?existsb_range_entries_same;
  rewrite ?existsb_range_entries_other by (intros; reflexivity);
  rewrite ?existsb_opt_param;
  rewrite ?(existsb_equipment (String.prefix ("eq" ++ "=")) _ true
              (λ x, prefix_key "eq" x) Hit);
  rewrite ?(existsb_equipment _ _ false (λ x, eq_refl) Hit);
  decide_key_prefix';
  rewrite ?andb_false_r, ?andb_true_r, ?orb_false_r, ?orb_false_l;
  try reflexivity.

(** The prepared parameters can be built into a URL exactly when the
    entries of the configuration hold none of the values on which the
    builder raises. *)
Lemma buildable_search_params general_countries search model :
  buildable (search_params_for general_countries search model)
  = negb (builder_raises general_countries search).
Proof.
  unfold buildable, builder_raises.
  cbn [search_params_for countries year_range price_range seats doors
       equipment].
  rewrite !pass_range_ok, pass_obj_iterable.
  destruct (countries_iterable _), (cfg_range_raises (cfg_year_range search)),
    (cfg_range_raises (cfg_price_range search)),
    (cfg_range_raises (cfg_seats search)),
    (cfg_range_raises (cfg_doors search)), (equipment_iterable _); done.
Qed.

(** X13: for every search entry, building the URL from the parameters
    [main] prepares raises exactly when the countries of the file cannot
    be iterated over, a range is true without being a mapping, or the
    equipment is true and cannot be iterated over.  Otherwise the URL is
    built, and each filter is in it exactly when its configured value is
    true in Python's sense; so a mileage bound or a radius of 0, which
    [main] hands on, is dropped by the builder, and no [search_id] is
    ever sent. *)
Theorem configured_filters_in_url
    (general_countries : option pyobj) (search : SearchConfig)
    (model : string) :
  let p := search_params_for general_countries search model in
  if builder_raises general_countries search
  then build_search_url p = None
  else
    ∃ url qp,
      build_search_url p = Some url
      ∧ query_params p = Some qp
      ∧ url = base_url p ++ "?" ++ Py.join "&" qp
      ∧ has_param "pricefrom" qp = cfg_bound_truthy (cfg_price_range search) "min"
      ∧ has_param "priceto" qp = cfg_bound_truthy (cfg_price_range search) "max"
      ∧ has_param "fregfrom" qp = cfg_bound_truthy (cfg_year_range search) "min"
      ∧ has_param "fregto" qp = cfg_bound_truthy (cfg_year_range search) "max"
      ∧ has_param "seatsfrom" qp = cfg_bound_truthy (cfg_seats search) "min"
      ∧ has_param "seatsto" qp = cfg_bound_truthy (cfg_seats search) "max"
      ∧ has_param "doorfrom" qp = cfg_bound_truthy (cfg_doors search) "min"
      ∧ has_param "doorto" qp = cfg_bound_truthy (cfg_doors search) "max"
      ∧ has_param "kmto" qp = cfg_truthy (cfg_max_kilometers search)
      ∧ has_param "body" qp = cfg_truthy (cfg_body_type search)
      ∧ has_param "fuel" qp = cfg_truthy (cfg_fuel_type search)
      ∧ has_param "gear" qp = cfg_truthy (cfg_transmission search)
      ∧ has_param "color" qp = cfg_truthy (cfg_color search)
      ∧ has_param "zip" qp = cfg_truthy (cfg_zip search)
      ∧ has_param "zipr" qp = cfg_truthy (cfg_zipr search)
      ∧ has_param "eq" qp = cfg_obj_truthy (cfg_equipment search)
      ∧ has_param "search_id" qp = false.
Proof.
  cbn zeta. set (p := search_params_for general_countries search model).
  pose proof (buildable_search_params general_countries search model) as Hb.
  fold p in Hb.
  assert (query_params p = if buildable p then Some (query_entries p) else None)
    as Hqp by apply query_params_entries.
  destruct (builder_raises general_countries search); cbn [negb] in Hb;
    rewrite Hb in Hqp.
  - unfold build_search_url. by rewrite Hqp.
  - pose proof (buildable_equipment p Hb) as Hit.
    eexists. exists (query_entries p).
    split; [unfold build_search_url; rewrite Hqp; reflexivity |].
    split; [done |]. split; [done |].
    repeat split; eval_params' Hit; subst p;
      cbn [search_params_for year_range price_range seats doors max_kilometers
           body_type fuel_type transmission color zip zipr equipment search_id];
      rewrite ?pass_range_min, ?pass_range_max, ?pass_truthy_truthy,
        ?pass_not_none_truthy, ?pass_obj_truthy; reflexivity.
Qed.

End MainToBuilder.

(** ** More on the page partitioner *)

Section PartitionerExtras.
Import Models Scraper Partitioner Examples.

(** The ways [select_listings] ends, by the reported total. *)
Lemma select_listings_cases page :
  match reported_total page with
  | Some n =>
      if (0 <? n)%Z
      then select_listings page = []
           ∨ select_listings page = take (Z.to_nat n) (candidates page)
      else select_listings page = []
           ∨ select_listings page = classified page
  | None => select_listings page = []
            ∨ select_listings page = classified page
  end.
Proof.
  unfold select_listings, candidates.
  destruct (reported_total page) as [n |].
  - change (default 0 (Some n)) with n.
    case_bool_decide as H0; [by destruct (0 <? n); left |].
    destruct (listing_elements page) as [| a l] eqn:El;
      [by destruct (0 <? n); left |].
    cbn [Storage.truthy_list negb].
    destruct (Z.ltb_spec 0 n) as [Hpos | Hneg].
    + right. rewrite andb_true_r. cbn [andb].
      destruct (classified page) as [| m ms]; cbn [Storage.truthy_list negb];
        by rewrite take_when_longer.
    + right. by rewrite andb_false_r.
  - change (default 0 None) with 0.
    case_bool_decide; [done |].
    destruct (listing_elements page) as [| a l]; [by left |].
    right. cbn [Storage.truthy_list negb]. by rewrite andb_false_r.
Qed.

Lemma classified_prefix_candidates page :
  classified page `prefix_of` candidates page.
Proof.
  unfold candidates. destruct (classified page) eqn:E; [| done].
  by exists (listing_elements page).
Qed.

(** X14: the fragments returned are the first of the candidates, in the order
    of the page; a positive reported total bounds their number, and a
    reported total of 0 leaves none. *)
Theorem select_listings_prefix (page : Page) :
  select_listings page `prefix_of` candidates page
  ∧ (∀ n, reported_total page = Some n → 0 < n →
       (length (select_listings page) ≤ Z.to_nat n)%nat)
  ∧ (reported_total page = Some 0 → select_listings page = []).
Proof.
  pose proof (select_listings_cases page) as Hc.
  split; [| split].
  - assert (select_listings page = [] → select_listings page `prefix_of` candidates page)
      as Hnil by (intros ->; by exists (candidates page)).
    assert (select_listings page = classified page →
            select_listings page `prefix_of` candidates page)
      as Hcl by (intros ->; apply classified_prefix_candidates).
    destruct (reported_total page) as [n |]; [| tauto].
    destruct (0 <? n); [| tauto].
    destruct Hc as [? | ->]; [auto | apply prefix_take].
  - intros n Hn Hpos. rewrite Hn in Hc.
    destruct (Z.ltb_spec 0 n); [| lia].
    destruct Hc as [-> | ->]; [cbn; lia |]. rewrite length_take. lia.
  - intros H0. unfold select_listings. rewrite H0. by case_bool_decide.
Qed.

(** X15: without a main results region, a fragment under a recommendation div
    is returned only when every fragment found is under one and the
    header reports a positive total. *)
Theorem recommendation_only_when_all (page : Page) (e : Element) :
  main_content page = None →
  e ∈ select_listings page →
  is_recommendation e = true →
  (∀ a, a ∈ listing_elements page → is_recommendation a = true)
  ∧ ∃ n, reported_total page = Some n ∧ 0 < n.
Proof.
  intros Hmain He Hrec.
  assert (classified page =
          filter (λ a, is_recommendation a = false) (listing_elements page))
    as Hcl by (unfold classified; by rewrite Hmain).
  assert (e ∉ classified page) as Hnot.
  { rewrite Hcl. intros [Hf _]%list_elem_of_filter. congruence. }
  pose proof (select_listings_cases page) as Hc.
  assert (select_listings page ≠ []) as Hne
    by (intros E; rewrite E in He; by apply elem_of_nil in He).
  assert (select_listings page ≠ classified page) as Hne'
    by (intros E; rewrite E in He; done).
  destruct (reported_total page) as [n |]; [| tauto].
  destruct (Z.ltb_spec 0 n) as [Hpos |]; [| tauto].
  destruct Hc as [? | Hs]; [done |].
  split; [| by exists n].
  rewrite Hs in He. apply elem_of_take in He as (i & He & _).
  apply list_elem_of_lookup_2 in He.
  unfold candidates in He.
  destruct (classified page) as [| c cs] eqn:Ecl; [| done].
  intros a Ha. destruct (is_recommendation a) eqn:Ea; [done |].
  assert (a ∈ filter (λ a, is_recommendation a = false) (listing_elements page))
    as Hin by (by apply list_elem_of_filter).
  rewrite <- Hcl in Hin. by apply elem_of_nil in Hin.
Qed.

Lemma recommendation_only_when_all_witness :
  (∀ a, a ∈ listing_elements page_only_recommended → is_recommendation a = true)
  ∧ ∃ n, reported_total page_only_recommended = Some n ∧ 0 < n.
Proof.
  apply (recommendation_only_when_all page_only_recommended
           (recommended_article "r1")).
  - reflexivity.
  - vm_compute. apply elem_of_cons. by left.
  - by vm_compute.
Defined.

Lemma span_digits_all_digits s : Py.all_digits (Py.span_digits s).1 = true.
Proof.
  induction s as [| c r IH]; cbn [Py.span_digits]; [done |].
  destruct (Py.is_digit c) eqn:Hd; [| done].
  destruct (Py.span_digits r) as [d rest]. cbn in *. by rewrite Hd.
Qed.

Lemma all_digits_digit_or_dot s :
  Py.all_digits s = true → Py.all_chars Py.digit_or_dot s = true.
Proof.
  induction s as [| c r IH]; cbn; [done |].
  intros [Hc Hr]%andb_true_iff. unfold Py.digit_or_dot at 1. by rewrite Hc, IH.
Qed.

Lemma all_chars_app P s t :
  Py.all_chars P s = true → Py.all_chars P t = true →
  Py.all_chars P (s ++ t)%string = true.
Proof.
  intros Hs Ht. induction s as [| c r IH]; [done |].
  cbn in Hs. apply andb_true_iff in Hs as [Hc Hr].
  change ((String c r ++ t)%string) with (String c (r ++ t)%string).
  cbn. by rewrite Hc, IH.
Qed.

(** The number found in a header is made of digits and dots. *)
Lemma search_number_chars s d :
  Py.search_number s = Some d → Py.all_chars Py.digit_or_dot d = true.
Proof.
  induction s as [| c r IH]; [discriminate |].
  cbn [Py.search_number].
  destruct (Py.is_digit c) eqn:Hd; [| exact IH].
  pose proof (span_digits_all_digits (String c r)) as H1.
  destruct (Py.span_digits (String c r)) as [d1 rest]. cbn [fst] in H1.
  assert (Some d1 = Some d → Py.all_chars Py.digit_or_dot d = true) as Hplain
    by (intros [= <-]; by apply all_digits_digit_or_dot).
  destruct rest as [| c' rest']; [exact Hplain |].
  destruct (Ascii.eqb_spec c' "."%char) as [-> | Hne].
  - pose proof (span_digits_all_digits rest') as H2.
    destruct (Py.span_digits rest') as [d2 rest2]. cbn [fst] in H2.
    destruct d2 as [| c2 d2']; [exact Hplain |].
    intros [= <-]. apply all_chars_app; [by apply all_digits_digit_or_dot |].
    apply (all_chars_app _ "."%string); [done |].
    by apply all_digits_digit_or_dot.
  - destruct c' as [[] [] [] [] [] [] [] []]; try exact Hplain.
    by contradiction Hne.
Qed.

Lemma prefix_dot c r :
  String.prefix "." (String c r) = Ascii.eqb c "."%char.
Proof.
  cbn [String.prefix]. destruct (ascii_dec "." c) as [<- | Hne].
  - by rewrite prefix_nil.
  - symmetry. apply Ascii.eqb_neq. congruence.
Qed.

(** Without its dots it is a run of digits. *)
Lemma replace_dot_all_digits d :
  Py.all_chars Py.digit_or_dot d = true →
  Py.all_digits (Py.replace "." "" d) = true.
Proof.
  change (Py.replace "." "" d) with (Py.replace_go "." "" 0 d).
  induction d as [| c r IH]; [done |].
  cbn [Py.all_chars]. intros [Hc Hr]%andb_true_iff.
  cbn [Py.replace_go]. rewrite prefix_dot.
  destruct (Ascii.eqb c ".") eqn:Edot.
  - cbn. by apply IH.
  - cbn. unfold Py.digit_or_dot in Hc. rewrite Edot, orb_false_r in Hc.
    by rewrite Hc, IH.
Qed.

(** X16: the total read from the header is never negative. *)
Theorem reported_total_nonneg (page : Page) (n : Z) :
  reported_total page = Some n → 0 ≤ n.
Proof.
  unfold reported_total.
  destruct (header_title page) as [header |]; [| discriminate].
  cbn [mbind option_bind].
  destruct (Py.search_number header) as [number |] eqn:E; [| discriminate].
  cbn [mbind option_bind].
  apply int_of_str_digits_nonneg, replace_dot_all_digits.
  by apply (search_number_chars header).
Qed.

Lemma reported_total_nonneg_witness :
  reported_total (page_with_header (Some "5.808 Angebote"%string)) = Some 5808
  ∧ 0 ≤ 5808.
Proof.
  split; [by vm_compute |].
  apply (reported_total_nonneg (page_with_header (Some "5.808 Angebote"%string))).
  by vm_compute.
Defined.

(** X17: the requests of one search: the first response that arrives within
    three attempts is the one used, three failures give an empty result,
    and a URL that cannot be built fails the search before any request. *)
Theorem search_retries (params : QueryBuilder.SearchParams)
    (fetch : string → nat → option Page) (clock : nat → Z)
    (make model : string) :
  match QueryBuilder.build_search_url (with_make_model params make model) with
  | None => search params fetch clock make model = None
  | Some url =>
      (fetch url 0%nat = None → fetch url 1%nat = None → fetch url 2%nat = None →
       search params fetch clock make model = Some [])
      ∧ (∀ k page, (k < 3)%nat →
           (∀ j, (j < k)%nat → fetch url j = None) →
           fetch url k = Some page →
           search params fetch clock make model
             = Some (search_page clock make model page))
  end.
Proof.
  unfold search.
  destruct (QueryBuilder.build_search_url (with_make_model params make model))
    as [url |]; [| done].
  cbn [mbind option_bind]. split.
  - intros H0 H1 H2. cbn. by rewrite H0, H1, H2.
  - intros k page Hk Hbefore Hpage.
    destruct k as [| [| [| k]]]; [| | | lia]; cbn.
    + by rewrite Hpage.
    + rewrite (Hbefore 0%nat) by lia. by rewrite Hpage.
    + rewrite (Hbefore 0%nat), (Hbefore 1%nat) by lia. by rewrite Hpage.
Qed.

End PartitionerExtras.

(** ** More on the field extractor *)

Section ExtractorExtras.
Import Models Scraper Examples.

(** One entry of [vehicleDetails] leaves a resolved field alone. *)
Lemma detail_step_keeps k y detail k' y' :
  detail_step (k, y) detail = Some (k', y') →
  (k ≠ 0 → k' = k) ∧ (y ≠ 0 → y' = y).
Proof.
  unfold detail_step.
  destruct (py_in "data" detail) as [[] |]; cbn [mbind option_bind negb];
    [| by intros [= <- <-] | discriminate].
  destruct (py_in "iconName" detail) as [[] |]; cbn [mbind option_bind negb];
    [| by intros [= <- <-] | discriminate].
  destruct detail as [| | | | | | fields]; try discriminate.
  destruct (obj_get "iconName" fields) as [icon |]; [| discriminate].
  cbn [mbind option_bind].
  destruct (obj_get "data" fields) as [data |]; [| discriminate].
  cbn [mbind option_bind].
  destruct (py_in "mileage" icon) as [is_mileage |]; [| discriminate].
  cbn [mbind option_bind].
  destruct (Z.eqb_spec k 0) as [-> | Hk].
  - rewrite andb_true_r. destruct is_mileage.
    + destruct (as_str data) as [text |]; [| discriminate].
      cbn [mbind option_bind].
      destruct (Notification.truthy_str (Py.digits_only text));
        [| by intros [= <- <-]].
      destruct (Py.int_of_str (Py.digits_only text)); by intros [= <- <-].
    + destruct (py_in "calendar" icon) as [is_calendar |]; [| discriminate].
      cbn [mbind option_bind].
      destruct (Z.eqb_spec y 0) as [-> | Hy].
      * rewrite andb_true_r. destruct is_calendar; [| by intros [= <- <-]].
        destruct (as_str data) as [text |]; [| discriminate].
        cbn [mbind option_bind].
        destruct (year_of "/" true 0 text); [| discriminate].
        cbn [mbind option_bind]. by intros [= <- <-].
      * rewrite andb_false_r. by intros [= <- <-].
  - rewrite andb_false_r.
    destruct (py_in "calendar" icon) as [is_calendar |]; [| discriminate].
    cbn [mbind option_bind].
    destruct (Z.eqb_spec y 0) as [-> | Hy].
    + rewrite andb_true_r. destruct is_calendar; [| by intros [= <- <-]].
      destruct (as_str data) as [text |]; [| discriminate].
      cbn [mbind option_bind].
      destruct (year_of "/" true 0 text); [| discriminate].
      cbn [mbind option_bind]. by intros [= <- <-].
    + rewrite andb_false_r. by intros [= <- <-].
Qed.

Lemma details_loop_keeps details : ∀ k y k' y',
  details_loop (k, y) details = Some (k', y') →
  (k ≠ 0 → k' = k) ∧ (y ≠ 0 → y' = y).
Proof.
  induction details as [| d rest IH]; intros k y k' y'; cbn [details_loop].
  - by intros [= <- <-].
  - destruct (detail_step (k, y) d) as [[k1 y1] |] eqn:E1; [| discriminate].
    cbn [mbind option_bind]. intros E2.
    apply detail_step_keeps in E1 as [Hk1 Hy1].
    apply IH in E2 as [Hk2 Hy2]. split.
    + intros Hk. rewrite Hk2; rewrite (Hk1 Hk); done.
    + intros Hy. rewrite Hy2; rewrite (Hy1 Hy); done.
Qed.

Lemma fallback_details_keeps element k y p k' y' p' :
  fallback_details element (k, y, p) = Some (k', y', p') →
  (k ≠ 0 → k' = k) ∧ (y ≠ 0 → y' = y) ∧ p' = p.
Proof.
  unfold fallback_details.
  destruct (unresolved k y p); [| by intros [= <- <- <-]].
  destruct (vehicle_details element) as [| | details];
    try by intros [= <- <- <-].
  destruct (details_loop (k, y) details) as [[k1 y1] |] eqn:E; [| discriminate].
  cbn [mbind option_bind]. intros [= <- <- <-].
  apply details_loop_keeps in E. tauto.
Qed.

Lemma fallback_tracking_keeps element k y p k' y' p' :
  fallback_tracking element (k, y, p) = Some (k', y', p') →
  (k ≠ 0 → k' = k) ∧ (y ≠ 0 → y' = y) ∧ (p ≠ 0 → p' = p).
Proof.
  unfold fallback_tracking.
  destruct (unresolved k y p); [| by intros [= <- <- <-]].
  destruct (tracking element) as [| | tracking_data];
    try by intros [= <- <- <-].
  match goal with
  | |- (?my ≫= _) = _ → _ => destruct my as [y1 |] eqn:Ey; [| discriminate]
  end.
  cbn [mbind option_bind].
  match goal with
  | |- (?mk ≫= _) = _ → _ => destruct mk as [k1 |] eqn:Ek; [| discriminate]
  end.
  cbn [mbind option_bind].
  match goal with
  | |- (?mp ≫= _) = _ → _ => destruct mp as [p1 |] eqn:Ep; [| discriminate]
  end.
  cbn [mbind option_bind]. intros [= <- <- <-].
  split; [| split].
  - intros Hk. destruct (obj_get "mileage" tracking_data);
      [| by injection Ek as <-].
    destruct (Z.eqb_spec k 0); [done | by injection Ek as <-].
  - intros Hy. destruct (obj_get "firstRegistration" tracking_data);
      [| by injection Ey as <-].
    destruct (Z.eqb_spec y 0); [done | by injection Ey as <-].
  - intros Hp. destruct (obj_get "price" tracking_data);
      [| by injection Ep as <-].
    destruct (Z.eqb_spec p 0); [done | by injection Ep as <-].
Qed.

(** X18: a field that a source has resolved is not written again by a later
    source: the first value that is not 0 wins, for each field on its
    own. *)
Theorem first_nonzero_wins (element : Element) (k y p k' y' p' : Z) :
  (fallback_details element (k, y, p) = Some (k', y', p') →
     (k ≠ 0 → k' = k) ∧ (y ≠ 0 → y' = y) ∧ p' = p)
  ∧ (fallback_tracking element (k, y, p) = Some (k', y', p') →
     (k ≠ 0 → k' = k) ∧ (y ≠ 0 → y' = y) ∧ (p ≠ 0 → p' = p))
  ∧ (p ≠ 0 → fallback_price element p = Some p).
Proof.
  split; [apply fallback_details_keeps |].
  split; [apply fallback_tracking_keeps | apply fallback_price_resolved].
Qed.

(** X19: the inline mileage and the inline year win over every embedded
    source, as the inline price does. *)
Theorem inline_mileage_and_year_win
    (element : Element) (make model : string) (now1 now2 : Z)
    (listing : CarListing) :
  extract_listing_details element make model now1 now2 = Extracted listing →
  (inline_int "data-mileage" element ≠ 0 →
     kilometers listing = inline_int "data-mileage" element)
  ∧ (∀ y0, inline_year element = Some y0 → y0 ≠ 0 → year listing = y0).
Proof.
  intros Hex. apply extracted_fields in Hex as (Hc & _).
  revert Hc. unfold cascade.
  destruct (inline_year element) as [y0 |] eqn:Ey; [| discriminate].
  cbn [mbind option_bind].
  destruct (fallback_details element
              (inline_int "data-mileage" element, y0,
               inline_int "data-price" element))
    as [[[k1 y1] p1] |] eqn:E1; [| discriminate].
  cbn [mbind option_bind].
  destruct (fallback_tracking element (k1, y1, p1))
    as [[[k2 y2] p2] |] eqn:E2; [| discriminate].
  cbn [mbind option_bind].
  destruct (fallback_price element p2) as [p3 |]; [| discriminate].
  cbn [mbind option_bind]. intros [= Hk Hy Hp].
  apply fallback_details_keeps in E1 as (Hk1 & Hy1 & _).
  apply fallback_tracking_keeps in E2 as (Hk2 & Hy2 & _).
  rewrite <- Hk, <- Hy. split.
  - intros Hk0. rewrite Hk2; rewrite (Hk1 Hk0); done.
  - intros y [= <-] Hy0. rewrite Hy2; rewrite (Hy1 Hy0); done.
Qed.

Lemma inline_mileage_and_year_witness :
  ∃ listing,
    extract_listing_details article_three_prices "Volkswagen" "T5" 10 11
      = Extracted listing
    ∧ inline_year article_three_prices = Some 2015
    ∧ year listing = 2015.
Proof.
  eexists. split; [by vm_compute |]. split; [by vm_compute |].
  refine (proj2 (inline_mileage_and_year_win article_three_prices
                   "Volkswagen" "T5" 10 11 _ _) 2015 _ _).
  - by vm_compute.
  - by vm_compute.
  - discriminate.
Defined.

Lemma digit_val_le_9 c : Py.is_digit c = true → Py.digit_val c ≤ 9.
Proof.
  unfold Py.is_digit, Py.digit_val. intros H.
  apply andb_true_iff in H as [_ H]. apply Nat.leb_le in H. lia.
Qed.

Lemma int_body_digits_some s : ∀ after_digit acc,
  Py.all_digits s = true → s ≠ ""%string ∨ after_digit = true →
  is_Some (Py.int_body after_digit acc s).
Proof.
  induction s as [| c r IH]; intros b acc Hs Hne; cbn.
  - destruct Hne as [? | ->]; [done | eauto].
  - cbn in Hs. apply andb_true_iff in Hs as [Hc Hr]. rewrite Hc.
    apply IH; [done | by right].
Qed.

(** A run of digits that is not empty is read by [int()]. *)
Lemma int_of_str_digits_some s :
  Py.all_digits s = true → s ≠ ""%string → is_Some (Py.int_of_str s).
Proof.
  intros Hs Hne. unfold Py.int_of_str. rewrite (strip_int_space_all_digits s Hs).
  destruct s as [| c r]; [done |].
  pose proof Hs as Hs'. cbn in Hs'. apply andb_true_iff in Hs' as [Hc _].
  assert (is_Some (Py.int_body false 0 (String c r))) as Hbody
    by (apply int_body_digits_some; [done | by left]).
  destruct c as [[] [] [] [] [] [] [] []]; try discriminate Hc; exact Hbody.
Qed.

Lemma int_body_digits_bound s : ∀ after_digit acc z,
  Py.all_digits s = true → 0 ≤ acc →
  Py.int_body after_digit acc s = Some z →
  z < (acc + 1) * 10 ^ Z.of_nat (String.length s).
Proof.
  induction s as [| c r IH]; intros b acc z Hs Hacc; cbn [Py.int_body].
  - destruct b; [| discriminate]. intros [= <-]. cbn. lia.
  - cbn in Hs. apply andb_true_iff in Hs as [Hc Hr]. rewrite Hc. intros Hz.
    pose proof (digit_val_nonneg c Hc). pose proof (digit_val_le_9 c Hc).
    apply IH in Hz; [| done | lia].
    cbn [String.length]. rewrite Nat2Z.inj_succ, Z.pow_succ_r by lia.
    assert (0 < 10 ^ Z.of_nat (String.length r)) by (apply Z.pow_pos_nonneg; lia).
    nia.
Qed.

(** A run of [n] digits is read as a number below [10 ^ n]. *)
Lemma int_of_str_digits_bound s z :
  Py.all_digits s = true → Py.int_of_str s = Some z →
  z < 10 ^ Z.of_nat (String.length s).
Proof.
  intros Hs. unfold Py.int_of_str. rewrite (strip_int_space_all_digits s Hs).
  destruct s as [| c r]; [discriminate |].
  pose proof Hs as Hs'. cbn in Hs'. apply andb_true_iff in Hs' as [Hc _].
  assert (Py.int_body false 0 (String c r) = Some z →
          z < 10 ^ Z.of_nat (String.length (String c r))) as Hbody.
  { intros Hz. apply int_body_digits_bound in Hz; [lia | done | lia]. }
  destruct c as [[] [] [] [] [] [] [] []]; try discriminate Hc; exact Hbody.
Qed.

Lemma take_digits_length n : ∀ s d rest,
  Py.take_digits n s = Some (d, rest) → String.length d = n.
Proof.
  induction n as [| n IH]; intros s d rest; cbn [Py.take_digits].
  - by intros [= <- _].
  - destruct s as [| c r]; [discriminate |].
    destruct (Py.is_digit c); [| discriminate].
    destruct (Py.take_digits n r) as [[d' rest'] |] eqn:E;
      cbn [mbind option_bind]; [| discriminate].
    intros [= <- _]. cbn. f_equal. by apply (IH _ _ _ E).
Qed.

Lemma search_month_year_length sep s y :
  Py.search_month_year sep s = Some y → String.length y = 4%nat.
Proof.
  assert (∀ t, Py.month_year_here sep t = Some y → String.length y = 4%nat)
    as Hhere.
  { intros t. unfold Py.month_year_here.
    destruct (Py.take_digits 2 t) as [[d rest] |]; [| discriminate].
    cbn -[Py.take_digits].
    destruct rest as [| c' rest']; [discriminate |].
    destruct (Ascii.eqb c' sep); [| discriminate].
    destruct (Py.take_digits 4 rest') as [[d' rest''] |] eqn:E4; [| discriminate].
    cbn. intros [= <-]. by apply (take_digits_length _ _ _ _ E4). }
  induction s as [| c r IH]; cbn [Py.search_month_year].
  - destruct (Py.month_year_here sep "") eqn:E; [| discriminate].
    intros [= ->]. by apply (Hhere _ E).
  - destruct (Py.month_year_here sep (String c r)) as [y' |] eqn:E; [| exact IH].
    intros [= ->]. by apply (Hhere _ E).
Qed.

Lemma search_four_digits_length s y :
  Py.search_four_digits s = Some y → String.length y = 4%nat.
Proof.
  induction s as [| c r IH].
  - cbn. discriminate.
  - cbn [Py.search_four_digits].
    destruct (Py.take_digits 4 (String c r)) as [[d rest] |] eqn:E; [| exact IH].
    intros [= ->]. by apply (take_digits_length _ _ _ _ E).
Qed.

Lemma four_digits_value s :
  Py.all_digits s = true → String.length s = 4%nat →
  ∃ z, Py.int_of_str s = Some z ∧ 0 ≤ z ≤ 9999.
Proof.
  intros Hs Hl.
  destruct (int_of_str_digits_some s Hs) as [z Hz].
  { intros ->. discriminate. }
  exists z. split; [done |]. split.
  - by apply (int_of_str_digits_nonneg s).
  - pose proof (int_of_str_digits_bound s z Hs Hz) as Hb. rewrite Hl in Hb.
    change (10 ^ Z.of_nat 4) with 10000 in Hb. lia.
Qed.

(** A registration text always gives a year, between 0 and 9999 when the
    year before was. *)
Lemma year_of_range sep bare current text :
  0 ≤ current ≤ 9999 →
  ∃ y, year_of sep bare current text = Some y ∧ 0 ≤ y ≤ 9999.
Proof.
  intros Hc. unfold year_of.
  destruct (Py.search_month_year sep text) as [m |] eqn:Em.
  - apply four_digits_value.
    + by apply (search_month_year_digits _ _ _ Em).
    + by apply (search_month_year_length _ _ _ Em).
  - destruct bare; [| eauto].
    destruct (Py.search_four_digits text) as [m |] eqn:Ef; [| eauto].
    apply four_digits_value.
    + by apply (search_four_digits_digits _ _ Ef).
    + by apply (search_four_digits_length _ _ Ef).
Qed.

Lemma detail_step_year k y detail k' y' :
  detail_step (k, y) detail = Some (k', y') →
  y' = y ∨ ∃ text, year_of "/" true y text = Some y'.
Proof.
  unfold detail_step.
  destruct (py_in "data" detail) as [[] |]; cbn [mbind option_bind negb];
    [| intros [= <- <-]; by left | discriminate].
  destruct (py_in "iconName" detail) as [[] |]; cbn [mbind option_bind negb];
    [| intros [= <- <-]; by left | discriminate].
  destruct detail as [| | | | | | fields]; try discriminate.
  destruct (obj_get "iconName" fields) as [icon |]; [| discriminate].
  cbn [mbind option_bind].
  destruct (obj_get "data" fields) as [data |]; [| discriminate].
  cbn [mbind option_bind].
  destruct (py_in "mileage" icon) as [is_mileage |]; [| discriminate].
  cbn [mbind option_bind].
  destruct (is_mileage && (k =? 0)).
  - destruct (as_str data) as [text |]; [| discriminate].
    cbn [mbind option_bind].
    destruct (Notification.truthy_str (Py.digits_only text));
      [| intros [= <- <-]; by left].
    destruct (Py.int_of_str (Py.digits_only text)); intros [= <- <-]; by left.
  - destruct (py_in "calendar" icon) as [is_calendar |]; [| discriminate].
    cbn [mbind option_bind].
    destruct (is_calendar && (y =? 0)); [| intros [= <- <-]; by left].
    destruct (as_str data) as [text |]; [| discriminate].
    cbn [mbind option_bind].
    destruct (year_of "/" true y text) as [y1 |] eqn:Ey; [| discriminate].
    cbn [mbind option_bind]. intros [= <- <-]. right. eauto.
Qed.

Lemma year_in_range_step sep bare y text y' :
  0 ≤ y ≤ 9999 → year_of sep bare y text = Some y' → 0 ≤ y' ≤ 9999.
Proof.
  intros Hy Hy'. destruct (year_of_range sep bare y text Hy) as (z & Hz & Hr).
  congruence.
Qed.

Lemma details_loop_year details : ∀ k y k' y',
  details_loop (k, y) details = Some (k', y') →
  0 ≤ y ≤ 9999 → 0 ≤ y' ≤ 9999.
Proof.
  induction details as [| d rest IH]; intros k y k' y'; cbn [details_loop].
  - by intros [= <- <-].
  - destruct (detail_step (k, y) d) as [[k1 y1] |] eqn:E1; [| discriminate].
    cbn [mbind option_bind]. intros E2 Hy. apply (IH _ _ _ _ E2).
    apply detail_step_year in E1 as [-> | [text Ht]]; [done |].
    by apply (year_in_range_step _ _ _ _ _ Hy Ht).
Qed.

Lemma cascade_year_range element k y p :
  cascade element = Some (k, y, p) → 0 ≤ y ≤ 9999.
Proof.
  unfold cascade.
  destruct (inline_year element) as [y0 |] eqn:Ey; [| discriminate].
  cbn [mbind option_bind].
  assert (0 ≤ y0 ≤ 9999) as Hy0.
  { revert Ey. unfold inline_year.
    destruct (data_attrs element !! "data-first-registration"%string);
      [| intros [= <-]; lia].
    apply year_in_range_step. lia. }
  destruct (fallback_details element
              (inline_int "data-mileage" element, y0,
               inline_int "data-price" element))
    as [[[k1 y1] p1] |] eqn:E1; [| discriminate].
  cbn [mbind option_bind].
  assert (0 ≤ y1 ≤ 9999) as Hy1.
  { revert E1. unfold fallback_details.
    destruct (unresolved _ _ _); [| by intros [= <- <- <-]].
    destruct (vehicle_details element) as [| | details];
      try by intros [= <- <- <-].
    destruct (details_loop _ details) as [[k' y'] |] eqn:E; [| discriminate].
    cbn [mbind option_bind]. intros [= <- <- <-].
    by apply (details_loop_year _ _ _ _ _ E). }
  destruct (fallback_tracking element (k1, y1, p1))
    as [[[k2 y2] p2] |] eqn:E2; [| discriminate].
  cbn [mbind option_bind].
  destruct (fallback_price element p2) as [p3 |]; [| discriminate].
  cbn [mbind option_bind]. intros [= <- <- <-].
  revert E2. unfold fallback_tracking.
  destruct (unresolved _ _ _); [| by intros [= <- <- <-]].
  destruct (tracking element) as [| | tracking_data];
    try by intros [= <- <- <-].
  match goal with
  | |- (?my ≫= _) = _ → _ => destruct my as [y' |] eqn:Ey'; [| discriminate]
  end.
  cbn [mbind option_bind].
  match goal with
  | |- (?mk ≫= _) = _ → _ => destruct mk as [k' |]; [| discriminate]
  end.
  cbn [mbind option_bind].
  match goal with
  | |- (?mp ≫= _) = _ → _ => destruct mp as [p' |]; [| discriminate]
  end.
  cbn [mbind option_bind]. intros [= <- <- <-].
  destruct (obj_get "firstRegistration" tracking_data) as [reg |];
    [| by injection Ey' as <-].
  destruct (y1 =? 0); [| by injection Ey' as <-].
  destruct (as_str reg) as [text |]; [| discriminate Ey'].
  cbn [mbind option_bind] in Ey'. by apply (year_in_range_step _ _ _ _ _ Hy1 Ey').
Qed.

(** X20: the year of every extracted record has at most four digits. *)
Theorem extracted_year_range
    (element : Element) (make model : string) (now1 now2 : Z)
    (listing : CarListing) :
  extract_listing_details element make model now1 now2 = Extracted listing →
  0 ≤ year listing ≤ 9999.
Proof.
  intros Hex. apply extracted_fields in Hex as (Hc & _).
  by apply cascade_year_range in Hc.
Qed.

Lemma extracted_year_range_witness :
  ∃ listing,
    extract_listing_details article_three_prices "Volkswagen" "T5" 10 11
      = Extracted listing
    ∧ 0 ≤ year listing ≤ 9999.
Proof.
  eexists. split; [by vm_compute |].
  apply (extracted_year_range article_three_prices "Volkswagen" "T5" 10 11).
  by vm_compute.
Defined.







(** X22: when the three inline attributes give values that are not 0, the
    embedded JSON is not looked at: whatever it holds, even values that
    would make a step fail, the numbers are the inline ones. *)
Theorem inline_resolved_skips_json
    (element : Element) (make model : string) (now1 now2 : Z) (y : Z) :
  inline_int "data-mileage" element ≠ 0 →
  inline_year element = Some y → y ≠ 0 →
  inline_int "data-price" element ≠ 0 →
  cascade element =
    Some (inline_int "data-mileage" element, y, inline_int "data-price" element)
  ∧ extract_listing_details element make model now1 now2 ≠ Raised.
Proof.
  intros Hk Hy Hy0 Hp.
  assert (cascade element =
            Some (inline_int "data-mileage" element, y,
                  inline_int "data-price" element)) as Hc.
  { assert (unresolved (inline_int "data-mileage" element) y
              (inline_int "data-price" element) = false) as Hu.
    { unfold unresolved.
      destruct (Z.eqb_spec (inline_int "data-mileage" element) 0); [done |].
      destruct (Z.eqb_spec y 0); [done |].
      by destruct (Z.eqb_spec (inline_int "data-price" element) 0). }
    unfold cascade. rewrite Hy. cbn [mbind option_bind].
    unfold fallback_details. rewrite Hu. cbn [mbind option_bind].
    unfold fallback_tracking. rewrite Hu. cbn [mbind option_bind].
    by rewrite (fallback_price_resolved _ _ Hp). }
  split; [done |]. unfold extract_listing_details. rewrite Hc.
  by destruct (negb _).
Qed.

Lemma inline_resolved_skips_json_witness :
  cascade article_inline_complete = Some (98000, 2015, 15990)
  ∧ extract_listing_details article_inline_complete "Volkswagen" "T5" 10 11
    ≠ Raised.
Proof.
  destruct (inline_resolved_skips_json article_inline_complete
              "Volkswagen" "T5" 10 11 2015) as [Hc Hr].
  - by vm_compute.
  - by vm_compute.
  - discriminate.
  - by vm_compute.
  - split; [| exact Hr]. rewrite Hc. by vm_compute.
Defined.

Lemma prefix_char a c r :
  String.prefix (String a "") (String c r) = Ascii.eqb c a.
Proof.
  cbn [String.prefix]. destruct (ascii_dec a c) as [<- | Hne].
  - rewrite prefix_nil. symmetry. apply Ascii.eqb_refl.
  - symmetry. apply Ascii.eqb_neq. congruence.
Qed.

(** What follows the last slash holds no slash. *)
Lemma last_segment_no_slash s :
  Py.contains "/" (Py.last_segment s) = false.
Proof.
  induction s as [| c r IH]; [done |].
  cbn [Py.last_segment].
  destruct (Py.contains "/" r) eqn:Er; [exact IH |].
  destruct (Ascii.eqb c "/") eqn:Ec; [exact Er |].
  cbn [Py.contains]. by rewrite prefix_char, Ec, Er.
Qed.

(** X23: the identifier of a record: the [id] attribute when it is there and
    not empty, otherwise what follows the last slash of the link, which
    holds no slash; it is never empty, and without either no record is
    made. *)
Theorem identifier_resolution
    (element : Element) (make model : string) (now1 now2 : Z) :
  (∀ listing,
     extract_listing_details element make model now1 now2 = Extracted listing →
     id listing ≠ ""%string
     ∧ match attrs element !! "id"%string with
       | Some (String c r) => id listing = String c r
       | Some ""%string | None =>
           ∃ href, link_href element = Some href
                   ∧ id listing = Py.last_segment href
                   ∧ Py.contains "/" (id listing) = false
       end)
  ∧ ((attrs element !! "id"%string = None
      ∨ attrs element !! "id"%string = Some ""%string) →
     (link_href element = None
      ∨ ∃ href, link_href element = Some href ∧ Py.last_segment href = ""%string) →
     ∀ listing,
       extract_listing_details element make model now1 now2 ≠ Extracted listing).
Proof.
  split.
  - intros listing Hex.
    apply extracted_fields in Hex as (_ & _ & _ & Hid & Hne).
    split; [done |]. revert Hid Hne. unfold listing_id_of.
    destruct (attrs element !! "id"%string) as [[| c r] |];
      cbn [default Notification.truthy_str negb]; try done.
    + destruct (link_href element) as [href |]; [| by intros ->].
      intros Hid _. exists href. split; [done |]. split; [done |].
      rewrite Hid. apply last_segment_no_slash.
    + destruct (link_href element) as [href |]; [| by intros ->].
      intros Hid _. exists href. split; [done |]. split; [done |].
      rewrite Hid. apply last_segment_no_slash.
  - intros Hattr Hlink listing Hex.
    apply extracted_fields in Hex as (_ & _ & _ & Hid & Hne).
    apply Hne. rewrite Hid. unfold listing_id_of.
    destruct Hattr as [-> | ->]; cbn [default Notification.truthy_str negb];
      destruct Hlink as [-> | (href & -> & Hseg)]; done.
Qed.

(** The text fields of an extracted record. *)
Lemma extracted_texts element make model now1 now2 listing :
  extract_listing_details element make model now1 now2 = Extracted listing →
  Models.make listing = make
  ∧ Models.model listing = model
  ∧ description listing = None
  ∧ title listing = Some (default ""%string (h2_text element))
  ∧ url listing = full_url_of element.
Proof.
  unfold extract_listing_details.
  destruct (cascade element) as [[[k y] p] |]; [| discriminate].
  destruct (negb _); [discriminate |]. by intros [= <-].
Qed.

End ExtractorExtras.

(** ** The listings of a fetched page *)

Section SearchPageExtras.
Import Models Scraper Partitioner Examples.

Lemma extract_all_elem clock make model elements : ∀ k l,
  l ∈ extract_all clock k make model elements →
  ∃ i e, elements !! i = Some e
         ∧ extract_listing_details e make model
             (clock (k + 2 * i)%nat) (clock (S (k + 2 * i))) = Extracted l.
Proof.
  induction elements as [| e rest IH]; intros k l; cbn [extract_all].
  - by intros ?%elem_of_nil.
  - assert (l ∈ extract_all clock (S (S k)) make model rest →
            ∃ i e', (e :: rest) !! i = Some e'
              ∧ extract_listing_details e' make model
                  (clock (k + 2 * i)%nat) (clock (S (k + 2 * i))) = Extracted l)
      as Htail.
    { intros Hl. destruct (IH _ _ Hl) as (i & e' & Hi & He').
      exists (S i), e'. split; [done |].
      by replace (k + 2 * S i)%nat with (S (S k) + 2 * i)%nat by lia. }
    destruct (extract_listing_details e make model (clock k) (clock (S k)))
      as [l0 | |] eqn:E; [| exact Htail | exact Htail].
    intros [-> | Hl]%elem_of_cons; [| by apply Htail].
    exists 0%nat, e. split; [done |].
    by replace (k + 2 * 0)%nat with k by lia.
Qed.

Lemma extract_all_ids clock make model elements : ∀ k,
  map id (extract_all clock k make model elements)
    `sublist_of` map listing_id_of elements.
Proof.
  induction elements as [| e rest IH]; intros k; cbn [extract_all map].
  - constructor.
  - destruct (extract_listing_details e make model (clock k) (clock (S k)))
      as [l0 | |] eqn:E.
    + cbn [map]. apply extracted_fields in E as (_ & _ & _ & -> & _).
      apply sublist_skip, IH.
    + apply sublist_cons, IH.
    + apply sublist_cons, IH.
Qed.

(** X24: what [search] returns for a fetched page: one record at most for each
    fragment kept, in the order of the fragments, each with the make and
    model that were searched for, an identifier that is not empty, a year
    of at most four digits, and the two clock readings of its turn. *)
Theorem search_page_listings (clock : nat → Z) (make model : string)
    (page : Page) :
  map id (search_page clock make model page)
    `sublist_of` map listing_id_of (select_listings page)
  ∧ ∀ l, l ∈ search_page clock make model page →
      Models.make l = make
      ∧ Models.model l = model
      ∧ id l ≠ ""%string
      ∧ description l = None
      ∧ 0 ≤ year l ≤ 9999
      ∧ ∃ i e, select_listings page !! i = Some e
               ∧ id l = listing_id_of e
               ∧ url l = full_url_of e
               ∧ first_seen l = clock (2 * i)%nat
               ∧ last_seen l = clock (S (2 * i)).
Proof.
  unfold search_page. split; [apply extract_all_ids |].
  intros l Hl. apply extract_all_elem in Hl as (i & e & Hi & He).
  pose proof (extracted_texts _ _ _ _ _ _ He) as (Hmk & Hmd & Hd & _ & Hu).
  pose proof (extracted_fields _ _ _ _ _ _ He) as (Hc & Hf & Hls & Hid & Hne).
  apply cascade_year_range in Hc.
  repeat (split; [done |]). exists i, e. by repeat split.
Qed.

End SearchPageExtras.

(** ** More on the title cleanup *)

Section TitleExtras.
Import Models Notification Examples.

Local Open Scope string_scope.

Lemma length_app_string s t :
  String.length (s ++ t) = (String.length s + String.length t)%nat.
Proof.
  induction s as [| c r IH]; [done |].
  change (String c r ++ t) with (String c (r ++ t)). cbn. by rewrite IH.
Qed.

Lemma length_drop s : ∀ n, (String.length (Py.drop n s) ≤ String.length s)%nat.
Proof.
  induction s as [| c r IH]; intros [| n]; cbn; try lia.
  specialize (IH n). lia.
Qed.

Lemma match_lit_length text : ∀ s r,
  match_lit text s = Some r →
  (String.length r + String.length text = String.length s)%nat.
Proof.
  induction text as [| a text IH]; intros s r; cbn [match_lit].
  - intros [= <-]. cbn. lia.
  - destruct s as [| b s']; [discriminate |].
    destruct (Ascii.eqb _ _); [| discriminate].
    intros H. apply IH in H. cbn. lia.
Qed.

(** A match takes characters away and puts none in. *)
Lemma match_atoms_length p : ∀ s r,
  match_atoms p s = Some r → (String.length r ≤ String.length s)%nat.
Proof.
  induction p as [| a p IH]; intros s r; cbn [match_atoms].
  - by intros [= <-].
  - destruct a as [text |].
    + destruct (match_lit text s) as [r1 |] eqn:E; [| discriminate].
      intros H. apply IH in H. apply match_lit_length in E. lia.
    + generalize (Py.span_space s). intros k.
      induction k as [| k IHk].
      * destruct (match_atoms p (Py.drop 0 s)) as [r1 |] eqn:E; [| discriminate].
        intros [= <-]. apply IH in E. pose proof (length_drop s 0). lia.
      * destruct (match_atoms p (Py.drop (S k) s)) as [r1 |] eqn:E; [| exact IHk].
        intros [= <-]. apply IH in E. pose proof (length_drop s (S k)). lia.
Qed.

Lemma sub_prefix_length p s :
  (String.length (sub_prefix p s) ≤ String.length s)%nat.
Proof.
  unfold sub_prefix. destruct (match_atoms p s) as [r |] eqn:E; [| done].
  by apply (match_atoms_length p).
Qed.

Lemma match_lit_suffix text : ∀ s r,
  match_lit text s = Some r → ∃ pre, s = pre ++ r.
Proof.
  induction text as [| a text IH]; intros s r; cbn [match_lit].
  - intros [= <-]. by exists "".
  - destruct s as [| b s']; [discriminate |].
    destruct (Ascii.eqb _ _); [| discriminate].
    intros H. apply IH in H as [pre ->]. by exists (String b pre).
Qed.

Lemma drop_suffix s : ∀ n, ∃ pre, s = pre ++ Py.drop n s.
Proof.
  induction s as [| c r IH]; intros [| n]; cbn [Py.drop]; try by exists "".
  destruct (IH n) as [pre Hpre]. exists (String c pre).
  change (String c pre ++ Py.drop n r) with (String c (pre ++ Py.drop n r)).
  by rewrite <- Hpre.
Qed.

Lemma append_assoc_string a b c : (a ++ b) ++ c = a ++ (b ++ c).
Proof.
  induction a as [| x a IH]; [done |].
  change ((String x a ++ b) ++ c) with (String x ((a ++ b) ++ c)).
  change (String x a ++ b ++ c) with (String x (a ++ b ++ c)).
  by rewrite IH.
Qed.

(** What a match leaves is the end of the string. *)
Lemma match_atoms_suffix p : ∀ s r,
  match_atoms p s = Some r → ∃ pre, s = pre ++ r.
Proof.
  induction p as [| a p IH]; intros s r; cbn [match_atoms].
  - intros [= <-]. by exists "".
  - destruct a as [text |].
    + destruct (match_lit text s) as [r1 |] eqn:E; [| discriminate].
      intros H. apply IH in H as [pre2 ->].
      apply match_lit_suffix in E as [pre1 ->].
      exists (pre1 ++ pre2). by rewrite append_assoc_string.
    + assert (∀ k r1, match_atoms p (Py.drop k s) = Some r1 →
                      ∃ pre, s = pre ++ r1) as Hdrop.
      { intros k r1 H. apply IH in H as [pre2 H2].
        destruct (drop_suffix s k) as [pre1 H1].
        exists (pre1 ++ pre2). by rewrite append_assoc_string, <- H2. }
      generalize (Py.span_space s). intros k.
      induction k as [| k IHk].
      * destruct (match_atoms p (Py.drop 0 s)) as [r1 |] eqn:E; [| discriminate].
        intros [= <-]. by apply (Hdrop 0%nat).
      * destruct (match_atoms p (Py.drop (S k) s)) as [r1 |] eqn:E; [| exact IHk].
        intros [= <-]. by apply (Hdrop (S k)).
Qed.

Lemma suffix_same_length pre r :
  String.length (pre ++ r) = String.length r → pre = "".
Proof.
  rewrite length_app_string. destruct pre; [done |]. cbn. lia.
Qed.

(** A substitution that gives a string as long as the subject changed
    nothing. *)
Lemma sub_prefix_same_length p s :
  String.length (sub_prefix p s) = String.length s → sub_prefix p s = s.
Proof.
  unfold sub_prefix. destruct (match_atoms p s) as [r |] eqn:E; [| done].
  apply match_atoms_suffix in E as [pre ->]. intros H. symmetry in H.
  by rewrite (suffix_same_length _ _ H).
Qed.

Lemma replace_go_length old : ∀ s skip,
  (String.length (Py.replace_go old "" skip s) ≤ String.length s)%nat.
Proof.
  induction s as [| c r IH]; intros skip; cbn [Py.replace_go]; [done |].
  destruct skip as [| k].
  - destruct (String.prefix old (String c r)).
    + change ("" ++ ?x) with x. specialize (IH (Nat.pred (String.length old))).
      cbn. lia.
    + specialize (IH 0%nat). cbn. lia.
  - specialize (IH k). cbn. lia.
Qed.

Lemma length_string_of_list l :
  String.length (string_of_list_ascii l) = length l.
Proof. induction l as [| c l IH]; cbn; [done | by rewrite IH]. Qed.

Lemma join_cons_length sep x rest :
  (String.length (Py.join sep (x :: rest))
   ≤ String.length x + String.length sep + String.length (Py.join sep rest))%nat.
Proof.
  destruct rest as [| y rest]; cbn [Py.join]; [lia |].
  rewrite !length_app_string. lia.
Qed.

Lemma join_split_go_length s : ∀ cur,
  (String.length (Py.join " " (Py.split_go cur s))
   ≤ length cur + String.length s)%nat.
Proof.
  induction s as [| c r IH]; intros cur; cbn [Py.split_go].
  - destruct cur as [| a cur]; [cbn; lia |].
    cbn [Py.join]. rewrite length_string_of_list, length_rev. lia.
  - destruct (Py.is_space c).
    + destruct cur as [| a cur].
      * cbn [app]. specialize (IH []). cbn in *. lia.
      * cbn [app].
        pose proof (join_cons_length " "
                      (string_of_list_ascii (rev (a :: cur)))
                      (Py.split_go [] r)) as H.
        rewrite length_string_of_list, length_rev in H.
        specialize (IH []). cbn in *. lia.
    + specialize (IH (c :: cur)). cbn in *. lia.
Qed.

(** Normalising a title never makes it longer. *)
Lemma normalize_title_length t :
  (String.length (normalize_title t) ≤ String.length t)%nat.
Proof.
  unfold normalize_title, Py.replace, Py.split.
  pose proof (join_split_go_length t []) as H0. cbn [length] in H0.
  pose proof (replace_go_length "****" (Py.join " " (Py.split_go [] t)) 0) as H1.
  pose proof (replace_go_length "***"
                (Py.replace_go "****" "" 0 (Py.join " " (Py.split_go [] t))) 0)
    as H2.
  pose proof (replace_go_length "**"
                (Py.replace_go "***" ""  0
                   (Py.replace_go "****" "" 0 (Py.join " " (Py.split_go [] t))))
                0) as H3.
  pose proof (replace_go_length "*"
                (Py.replace_go "**" "" 0
                   (Py.replace_go "***" ""  0
                      (Py.replace_go "****" "" 0
                         (Py.join " " (Py.split_go [] t))))) 0) as H4.
  lia.
Qed.

(** X25: how the loop over the patterns behaves, for a make and a model
    that hold no character special to a regular expression.  When
    normalising left the raw title as it was, it is the cascade that
    stops at the first pattern that changes the string.  When normalising
    changed the raw title, only the first pattern is ever applied,
    whether it matches or not. *)
Theorem title_loop_behaviour (raw make model : string) :
  regex_plain make = true →
  regex_plain model = true →
  let clean := normalize_title raw in
  (clean = raw →
     strip_patterns (patterns make model) raw clean
     = strip_first_changing (patterns make model) clean)
  ∧ (clean ≠ raw →
     strip_patterns (patterns make model) raw clean
     = sub_prefix [Lit make; SpaceStar; Lit model; SpaceStar] clean).
Proof.
  intros _ _. cbn zeta. split.
  - intros ->. apply strip_patterns_on_clean.
  - intros Hne. cbn [patterns strip_patterns].
    destruct (String.eqb_spec
                (sub_prefix [Lit make; SpaceStar; Lit model; SpaceStar]
                   (normalize_title raw)) raw) as [Heq | _]; [| done].
    exfalso. apply Hne.
    pose proof (normalize_title_length raw) as Hl.
    pose proof (sub_prefix_length [Lit make; SpaceStar; Lit model; SpaceStar]
                  (normalize_title raw)) as Hs.
    rewrite <- (sub_prefix_same_length
                  [Lit make; SpaceStar; Lit model; SpaceStar]
                  (normalize_title raw)); [done |].
    rewrite Heq in Hs |- *. lia.
Qed.

Lemma title_loop_witness :
  regex_plain "Volkswagen" = true
  ∧ regex_plain "T5" = true
  ∧ normalize_title "Volkswagen Camper ****" ≠ "Volkswagen Camper ****"
  ∧ strip_patterns (patterns "Volkswagen" "T5") "Volkswagen Camper ****"
      (normalize_title "Volkswagen Camper ****")
    = "Volkswagen Camper ".
Proof.
  split; [reflexivity |]. split; [reflexivity |].
  assert (normalize_title "Volkswagen Camper ****" ≠ "Volkswagen Camper ****")
    as Hne by (by vm_compute).
  split; [exact Hne |].
  rewrite (proj2 (title_loop_behaviour "Volkswagen Camper ****"
                    "Volkswagen" "T5" eq_refl eq_refl) Hne).
  by vm_compute.
Defined.

Lemma all_chars_suffix P pre : ∀ r,
  Py.all_chars P (pre ++ r) = true → Py.all_chars P r = true.
Proof.
  induction pre as [| c pre IH]; intros r; [done |].
  change (String c pre ++ r) with (String c (pre ++ r)). cbn.
  intros [_ H]%andb_true_iff. by apply IH.
Qed.

Lemma all_chars_drop P s : ∀ n,
  Py.all_chars P s = true → Py.all_chars P (Py.drop n s) = true.
Proof.
  induction s as [| c r IH]; intros [| n]; cbn; try done.
  intros [_ H]%andb_true_iff. by apply IH.
Qed.

Lemma all_chars_rstrip P s :
  Py.all_chars P s = true → Py.all_chars P (Py.rstrip s) = true.
Proof.
  induction s as [| c r IH]; [done |]. cbn [Py.all_chars Py.rstrip].
  intros [Hc Hr]%andb_true_iff. specialize (IH Hr).
  destruct (Py.rstrip r) as [| c' r'].
  - destruct (Py.is_space c); [done |]. cbn. by rewrite Hc.
  - cbn [Py.all_chars] in *. by rewrite Hc, IH.
Qed.

Lemma all_chars_strip P s :
  Py.all_chars P s = true → Py.all_chars P (Py.strip s) = true.
Proof.
  intros H. unfold Py.strip, Py.lstrip.
  by apply all_chars_rstrip, all_chars_drop.
Qed.

Lemma all_chars_sub_prefix P p s :
  Py.all_chars P s = true → Py.all_chars P (sub_prefix p s) = true.
Proof.
  unfold sub_prefix. destruct (match_atoms p s) as [r |] eqn:E; [| done].
  apply match_atoms_suffix in E as [pre ->]. apply all_chars_suffix.
Qed.

Lemma all_chars_strip_patterns P ps raw : ∀ clean,
  Py.all_chars P clean = true →
  Py.all_chars P (strip_patterns ps raw clean) = true.
Proof.
  induction ps as [| p ps IH]; intros clean H; cbn [strip_patterns]; [done |].
  pose proof (all_chars_sub_prefix P p clean H) as H1.
  destruct (negb _); [done | by apply IH].
Qed.

(** Removing the asterisks leaves none. *)
Lemma replace_star_no_star s :
  Py.all_chars not_star (Py.replace "*" "" s) = true.
Proof.
  change (Py.replace "*" "" s) with (Py.replace_go "*" "" 0 s).
  induction s as [| c r IH]; [done |].
  cbn [Py.replace_go]. rewrite prefix_char.
  destruct (Ascii.eqb c "*") eqn:E.
  - change ("" ++ ?x) with x. exact IH.
  - cbn [Py.all_chars]. unfold not_star at 1. by rewrite E, IH.
Qed.

Lemma append_space_nonempty a b : a ++ " " ++ b ≠ "".
Proof. by destruct a. Qed.

Lemma truthy_str_nonempty s : truthy_str s = true → s ≠ "".
Proof. by destruct s. Qed.

(** X26: for a make and a model that hold no character special to a
    regular expression, the title shown is never empty; it is either the
    make and the model or a cleaned title, which holds no asterisk. *)
Theorem title_str_clean (listing : CarListing) :
  regex_plain (make listing) = true →
  regex_plain (model listing) = true →
  title_str listing ≠ ""
  ∧ (title_str listing = make listing ++ " " ++ model listing
     ∨ Py.all_chars not_star (title_str listing) = true
       ∧ ∃ raw, title listing = Some raw
                ∧ title_str listing
                  = Py.strip (strip_patterns
                                (patterns (make listing) (model listing))
                                raw (normalize_title raw))).
Proof.
  intros _ _. unfold title_str.
  destruct (title listing) as [raw |];
    [| split; [apply append_space_nonempty | by left]].
  destruct (truthy_str raw && truthy_str (Py.strip raw));
    [| split; [apply append_space_nonempty | by left]].
  destruct (truthy_str (Py.strip (strip_patterns _ raw (normalize_title raw))))
    eqn:E; cbn [negb].
  - split; [by apply truthy_str_nonempty |]. right.
    split; [| by exists raw].
    apply all_chars_strip, all_chars_strip_patterns.
    unfold normalize_title. apply replace_star_no_star.
  - split; [apply append_space_nonempty | by left].
Qed.

Lemma title_str_clean_witness :
  regex_plain "Volkswagen" = true
  ∧ regex_plain "T5" = true
  ∧ title_str (Examples.camper "A" 15000 100) = "Camper"
  ∧ title_str (Examples.camper "A" 15000 100) ≠ "".
Proof.
  split; [reflexivity |]. split; [reflexivity |].
  split; [by vm_compute |].
  apply (title_str_clean (Examples.camper "A" 15000 100)); reflexivity.
Defined.

End TitleExtras.

(** ** The status report and the clean-up script *)

Section ScriptExtras.
Import Models Storage Main CheckDb Examples.

Lemma count_one_lookup makes listing key :
  count_one makes listing !! key =
    if decide (make_model listing = key)
    then Some (S (default 0%nat (makes !! key)))
    else makes !! key.
Proof.
  unfold count_one.
  destruct (makes !! make_model listing) as [n |] eqn:E; case_decide as Hd.
  - subst key. by rewrite lookup_insert_eq, E.
  - by rewrite lookup_insert_ne.
  - subst key. by rewrite !lookup_insert_eq, E.
  - by rewrite !lookup_insert_ne.
Qed.

Lemma foldl_count_one listings : ∀ makes key,
  foldl count_one makes listings !! key =
    match occurrences key listings with
    | O => makes !! key
    | S n => Some (S n + default 0 (makes !! key))%nat
    end.
Proof.
  induction listings as [| l rest IH]; intros makes key; [done |].
  cbn [foldl]. rewrite IH, count_one_lookup. unfold occurrences.
  rewrite filter_cons. case_decide as Hd; [| done].
  cbn [length]. destruct (length (filter _ rest)) as [| n]; cbn [default];
    unfold Datatypes.id; f_equal; lia.
Qed.

(** X27: the report counts every listing under its make and model: a key is
    in the table exactly when some listing has it, and its count is the
    number of listings that have it. *)
Theorem count_by_make_model_counts (listings : list CarListing) (key : string) :
  count_by_make_model listings !! key =
    match occurrences key listings with
    | O => None
    | S n => Some (S n)
    end.
Proof.
  unfold count_by_make_model. rewrite foldl_count_one, lookup_empty.
  destruct (occurrences key listings); [done |]. cbn. f_equal. lia.
Qed.


End ScriptExtras.
